(** * Cart pricing and order lifecycle of the e-commerce backend

  A shallow embedding of [backend/models/Cart.js], [backend/models/Order.js],
  the product model's stock method, and the order, cart and payment route
  handlers, followed by the properties proved about them.

  JavaScript numbers are IEEE-754 binary64 values; they are modelled by
  Rocq's primitive floats, so every arithmetic expression below rounds
  exactly as the source expression does. *)

From Stdlib Require Import ZArith List String Ascii Bool Lia.
From Stdlib Require Import PrimFloat SpecFloat FloatOps FloatAxioms.
From stdpp Require Import base option list gmap strings pretty.
Import ListNotations.

Set Warnings "-inexact-float".

Local Open Scope string_scope.
Local Open Scope bool_scope.

(* ================================================================== *)
(** ** JavaScript values used by the models *)
(* ================================================================== *)

Module JS.

(** A JavaScript [Number]. *)
Abbreviation Number := float.

(** [a < b], [a <= b], [a > b], [a >= b], [a === b] on numbers: the IEEE
    comparisons, all false as soon as one side is NaN. *)
Definition lt (a b : Number) : bool := PrimFloat.ltb a b.
Definition le (a b : Number) : bool := PrimFloat.leb a b.
Definition gt (a b : Number) : bool := PrimFloat.ltb b a.
Definition ge (a b : Number) : bool := PrimFloat.leb b a.
Definition strict_eq (a b : Number) : bool := PrimFloat.eqb a b.

(** [Math.min(a, b)]: NaN if either argument is NaN, and [-0] below [+0]. *)
Definition Math_min (a b : Number) : Number :=
  if PrimFloat.is_nan a then a
  else if PrimFloat.is_nan b then b
  else if PrimFloat.ltb a b then a
  else if PrimFloat.ltb b a then b
  else if PrimFloat.get_sign a then a else b.

(** [doc.path = v] on a [Number] path holding [old]: the cast of the
    schema type refuses NaN, the assignment is dropped and the path keeps
    the value it had. *)
Definition assign_Number (old v : Number) : Number :=
  if PrimFloat.is_nan v then old else v.

(** Two numbers print the same under [JSON.stringify]: NaN and the
    infinities print as [null], the two zeros as [0], and distinct finite
    numbers print differently. *)
Definition json_number_eq (a b : Number) : bool :=
  PrimFloat.eqb a b
  || ((PrimFloat.is_nan a || PrimFloat.is_infinity a)
      && (PrimFloat.is_nan b || PrimFloat.is_infinity b)).

(** [Array.prototype.findIndex]; [None] stands for the result [-1]. *)
Fixpoint findIndex {A : Type} (p : A -> bool) (l : list A) : option nat :=
  match l with
  | [] => None
  | x :: l' => if p x then Some O else option_map S (findIndex p l')
  end.

(** [String.prototype.toUpperCase] on ASCII letters. *)
Definition upper_char (c : ascii) : ascii :=
  let n := nat_of_ascii c in
  if (97 <=? n)%nat && (n <=? 122)%nat then ascii_of_nat (n - 32) else c.

Fixpoint toUpperCase (s : string) : string :=
  match s with
  | EmptyString => EmptyString
  | String c s' => String (upper_char c) (toUpperCase s')
  end.

(** [s.padStart(n, '0')]. *)
Fixpoint zeros (n : nat) : string :=
  match n with
  | O => EmptyString
  | S n' => String "0" (zeros n')
  end.

Definition padStart0 (n : nat) (s : string) : string :=
  zeros (n - String.length s) ++ s.

(** [s.substr(-k)]: the last [k] characters, the whole string when it is
    shorter. *)
Definition substr_last (k : nat) (s : string) : string :=
  substring (String.length s - k) k s.

(** A [Date] read through its local-time accessors; [msOfDay] is the time
    elapsed since local midnight. *)
Record Date := mkDate {
  getFullYear : Z;
  getMonth : Z;
  getDate : Z;
  msOfDay : Z
}.

(** Chronological order on dates (lexicographic on the accessors). *)
Definition Date_ltb (a b : Date) : bool :=
  (getFullYear a <? getFullYear b)%Z
  || ((getFullYear a =? getFullYear b)%Z
      && ((getMonth a <? getMonth b)%Z
          || ((getMonth a =? getMonth b)%Z
              && ((getDate a <? getDate b)%Z
                  || ((getDate a =? getDate b)%Z
                      && (msOfDay a <? msOfDay b)%Z))))).

Definition Date_leb (a b : Date) : bool := negb (Date_ltb b a).

End JS.
Import JS.

(** Identifiers ([ObjectId]) are compared through their string form. *)
Abbreviation ObjectId := string (only parsing).

(** What a method throws.  [Error_ m] is [new Error(m)];
  [MinimumAmountError a] is the templated message
  ["Minimum order amount of $a required for this coupon"];
  [ValidationError] is the rejection of [save] by a schema validator. *)
Inductive Error : Type :=
| Error_ (message : string)
| MinimumAmountError (minAmount : Number)
| ValidationError.

Inductive result (A : Type) : Type :=
| Ok (a : A)
| Throw (e : Error).
Arguments Ok {A} a.
Arguments Throw {A} e.

Definition bind {A B : Type} (r : result A) (k : A -> result B) : result B :=
match r with
| Ok a => k a
| Throw e => Throw e
end.

(** The optional variant of a cart or order line. *)
Module Variant.
Record Variant := mk {
  name : string;
  value : string;
  additionalPrice : Number
}.

(** [JSON.stringify(a) === JSON.stringify(b)] on optional variants. *)
Definition stringify_eq (a b : option Variant) : bool :=
  match a, b with
  | None, None => true
  | Some x, Some y =>
      String.eqb (name x) (name y) && String.eqb (value x) (value y)
      && json_number_eq (additionalPrice x) (additionalPrice y)
  | _, _ => false
  end.
End Variant.

(* ================================================================== *)
(** ** Product model: the fields and the stock method the core uses *)
(* ================================================================== *)

Module Product.

Record Product := mk {
  _id : ObjectId;
  name : string;
  images : list string;        (* the [url] of each image *)
  price : Number;
  countInStock : Number;
  isActive : bool;
  status : string
}.

Definition set_stock (n : Number) (st : string) (p : Product) : Product :=
  {| _id := _id p; name := name p; images := images p; price := price p;
     countInStock := n; isActive := isActive p; status := st |}.

(** The schema's [min: 0] on [countInStock], checked by [save]. *)
Definition validate (p : Product) : bool := JS.ge (countInStock p) 0%float.

Definition save (p : Product) : result Product :=
  if validate p then Ok p else Throw ValidationError.

(** [productSchema.methods.updateStock]. *)
Definition updateStock (quantity : Number) (operation : string)
    (this : Product) : result Product :=
  bind
    (if String.eqb operation "subtract" then
       if JS.lt (countInStock this) quantity
       then Throw (Error_ "Insufficient stock")
       else Ok (PrimFloat.sub (countInStock this) quantity)
     else if String.eqb operation "add" then
       Ok (PrimFloat.add (countInStock this) quantity)
     else Ok (countInStock this))
    (fun stock =>
       let st :=
         if JS.strict_eq stock 0%float then "out_of_stock"
         else if String.eqb (status this) "out_of_stock" then "active"
         else status this in
       save (set_stock stock st this)).

End Product.

Abbreviation Catalog := (gmap string Product.Product) (only parsing).

(* ================================================================== *)
(** ** Cart model ([backend/models/Cart.js]) *)
(* ================================================================== *)

Module Cart.

Record CartItem := mkItem {
  product : ObjectId;
  name : string;
  image : string;
  price : Number;
  quantity : Number;
  variant : option Variant.Variant;
  addedAt : Date
}.

Record Cart := mk {
  user : ObjectId;
  items : list CartItem;
  couponCode : option string;
  couponDiscount : Number;
  subtotal : Number;
  tax : Number;
  shipping : Number;
  total : Number;
  currency : string;
  lastUpdated : Date
}.

Definition set_quantity (q : Number) (i : CartItem) : CartItem :=
  {| product := product i; name := name i; image := image i;
     price := price i; quantity := q; variant := variant i;
     addedAt := addedAt i |}.

Definition set_items (l : list CartItem) (c : Cart) : Cart :=
  {| user := user c; items := l; couponCode := couponCode c;
     couponDiscount := couponDiscount c; subtotal := subtotal c;
     tax := tax c; shipping := shipping c; total := total c;
     currency := currency c; lastUpdated := lastUpdated c |}.

Definition set_coupon (code : option string) (d : Number) (c : Cart) : Cart :=
  {| user := user c; items := items c; couponCode := code;
     couponDiscount := d; subtotal := subtotal c;
     tax := tax c; shipping := shipping c; total := total c;
     currency := currency c; lastUpdated := lastUpdated c |}.

(** The virtuals [totalItems] and [itemCount]. *)
Definition totalItems (c : Cart) : Number :=
  fold_left (fun total item => PrimFloat.add total (quantity item))
            (items c) 0%float.

Definition itemCount (c : Cart) : nat := length (items c).

(** [item.variant.additionalPrice].  [variant] is a nested path of the line
    schema: on a line stored with [variant: null] there is nothing under
    it and the read gives [undefined]. *)
Definition variant_additionalPrice (item : CartItem) : option Number :=
  option_map Variant.additionalPrice (variant item).

(** The reducer of the pre-save hook.  The test [item.variant] is on a
    nested path, which reads as an object and is truthy on every line, so
    the branch [: 0] is never taken; [item.price + undefined] is NaN. *)
Definition line_total (item : CartItem) : Number :=
  let itemPrice :=
    match variant_additionalPrice item with
    | Some additionalPrice => PrimFloat.add (price item) additionalPrice
    | None => PrimFloat.nan
    end in
  PrimFloat.mul itemPrice (quantity item).

Definition items_subtotal (l : list CartItem) : Number :=
  fold_left (fun total item => PrimFloat.add total (line_total item))
            l 0%float.

Definition taxRate : Number := 0.08%float.

(** [cartSchema.pre('save')]: recompute the derived money fields.  Each
    statement assigns a path and the next one reads it back, so a dropped
    assignment leaves the later statements working on the old value. *)
Definition pre_save (now : Date) (this : Cart) : Cart :=
  let subtotal' :=
    assign_Number (subtotal this) (items_subtotal (items this)) in
  let tax' := assign_Number (tax this) (PrimFloat.mul subtotal' taxRate) in
  let shipping' := if JS.ge subtotal' 100%float then 0%float else 10%float in
  let total' :=
    assign_Number (total this)
      (PrimFloat.sub
         (PrimFloat.add (PrimFloat.add subtotal' tax') shipping')
         (couponDiscount this)) in
  {| user := user this; items := items this;
     couponCode := couponCode this; couponDiscount := couponDiscount this;
     subtotal := subtotal'; tax := tax'; shipping := shipping';
     total := total'; currency := currency this; lastUpdated := now |}.

(** The validators declared by the two schemas.  [required] refuses an
    empty string on a [String] path; a range validator accepts [v] when
    [v >= min] (resp. [v <= max]), which also refuses NaN.  The paths
    [product], [price], [quantity] and [user] always hold a value in this
    model, so their [required] has nothing to refuse. *)
Definition required_String (s : string) : bool := negb (String.eqb s "").

Definition validate_item (i : CartItem) : bool :=
  required_String (name i) && required_String (image i)
  && JS.ge (price i) 0%float
  && JS.ge (quantity i) 1%float && JS.le (quantity i) 10%float.

Definition validate (c : Cart) : bool :=
  forallb validate_item (items c)
  && JS.ge (couponDiscount c) 0%float
  && JS.ge (subtotal c) 0%float
  && JS.ge (tax c) 0%float
  && JS.ge (shipping c) 0%float
  && JS.ge (total c) 0%float.

(** [this.save()]: the built-in validation runs as the first pre-save
    step, on the document as the method left it; the hook above then
    recomputes the totals and the document is stored.  What the hook
    assigns is not validated by this save, but by the next one. *)
Definition save (now : Date) (this : Cart) : result Cart :=
  if validate this then Ok (pre_save now this) else Throw ValidationError.

(** [Cart.create({ user, items: [] })] with the schema defaults. *)
Definition create (now : Date) (userId : ObjectId) : result Cart :=
  save now
    {| user := userId; items := []; couponCode := None;
       couponDiscount := 0%float; subtotal := 0%float; tax := 0%float;
       shipping := 0%float; total := 0%float; currency := "USD";
       lastUpdated := now |}.

(** The predicate handed to [findIndex] by the three line methods, on a
    document whose lines hold product identifiers: one loaded with
    [Cart.findOne], as the update, remove and coupon routes do, or just
    created.  ([findOrCreateCart] loads an existing cart with
    [populate('items.product')]; on such a document [item.product] is the
    product document, its [toString()] is not an identifier, and no line
    matches.  The methods below are those of the unpopulated document.) *)
Definition same_line (productId : ObjectId)
    (variant' : option Variant.Variant) (item : CartItem) : bool :=
  let sameProduct := String.eqb (product item) productId in
  let sameVariant := Variant.stringify_eq (variant item) variant' in
  sameProduct && sameVariant.

(** [cartSchema.methods.addItem]. *)
Definition addItem (catalog : Catalog) (now : Date)
    (productId : ObjectId) (quantity' : Number)
    (variant' : option Variant.Variant) (this : Cart) : result Cart :=
  match findIndex (same_line productId variant') (items this) with
  | Some existingItemIndex =>
      let bump (i : CartItem) :=
        let q := PrimFloat.add (quantity i) quantity' in
        set_quantity (if JS.gt q 10%float then 10%float else q) i in
      save now (set_items (alter bump existingItemIndex (items this)) this)
  | None =>
      match catalog !! productId with
      | None => Throw (Error_ "Product not found")
      | Some p =>
          if negb (Product.isActive p)
             || JS.lt (Product.countInStock p) quantity'
          then Throw (Error_ "Product not available")
          else
            save now
              (set_items
                 (items this ++
                  [ {| product := productId;
                       name := Product.name p;
                       image := match Product.images p with
                                | url :: _ => url
                                | [] => ""
                                end;
                       price := Product.price p;
                       quantity := Math_min quantity' 10%float;
                       variant := variant';
                       addedAt := now |} ])
                 this)
      end
  end.

(** [cartSchema.methods.updateItemQuantity]. *)
Definition updateItemQuantity (now : Date) (productId : ObjectId)
    (quantity' : Number) (variant' : option Variant.Variant)
    (this : Cart) : result Cart :=
  match findIndex (same_line productId variant') (items this) with
  | None => Throw (Error_ "Item not found in cart")
  | Some itemIndex =>
      if JS.le quantity' 0%float then
        save now (set_items (delete itemIndex (items this)) this)
      else
        save now
          (set_items
             (alter (set_quantity (Math_min quantity' 10%float))
                    itemIndex (items this))
             this)
  end.

(** [cartSchema.methods.removeItem]. *)
Definition removeItem (now : Date) (productId : ObjectId)
    (variant' : option Variant.Variant) (this : Cart) : result Cart :=
  match findIndex (same_line productId variant') (items this) with
  | None => Throw (Error_ "Item not found in cart")
  | Some itemIndex =>
      save now (set_items (delete itemIndex (items this)) this)
  end.

(** [cartSchema.methods.clearCart]. *)
Definition clearCart (now : Date) (this : Cart) : result Cart :=
  save now (set_coupon None 0%float (set_items [] this)).

(** The coupon table of [applyCoupon]. *)
Inductive CouponType := percentage | fixed.

Record Coupon := mkCoupon {
  type : CouponType;
  value : Number;
  minAmount : Number
}.

Definition coupons (code : string) : option Coupon :=
  if String.eqb code "SAVE10" then Some (mkCoupon percentage 10%float 50%float)
  else if String.eqb code "SAVE20" then Some (mkCoupon percentage 20%float 100%float)
  else if String.eqb code "FLAT15" then Some (mkCoupon fixed 15%float 75%float)
  else None.

(** [cartSchema.methods.applyCoupon]. *)
Definition applyCoupon (now : Date) (couponCode' : string)
    (this : Cart) : result Cart :=
  match coupons (toUpperCase couponCode') with
  | None => Throw (Error_ "Invalid coupon code")
  | Some coupon =>
      if JS.lt (subtotal this) (minAmount coupon)
      then Throw (MinimumAmountError (minAmount coupon))
      else
        let discount :=
          match type coupon with
          | percentage =>
              PrimFloat.div (PrimFloat.mul (subtotal this) (value coupon))
                            100%float
          | fixed => value coupon
          end in
        save now (set_coupon (Some (toUpperCase couponCode')) discount this)
  end.

(** [cartSchema.methods.removeCoupon]. *)
Definition removeCoupon (now : Date) (this : Cart) : result Cart :=
  save now (set_coupon None 0%float this).

(** One entry of the list returned by [validateCartItems]. *)
Inductive Problem :=
| NoLongerAvailable (item : CartItem)
| OnlyAvailable (item : CartItem) (availableQuantity : Number)
| PriceChanged (item : CartItem) (oldPrice newPrice : Number).

(** [cartSchema.methods.validateCartItems]. *)
Definition check_item (catalog : Catalog) (item : CartItem)
    : option Problem :=
  match catalog !! product item with
  | None => Some (NoLongerAvailable item)
  | Some p =>
      if negb (Product.isActive p) then Some (NoLongerAvailable item)
      else if JS.lt (Product.countInStock p) (quantity item)
      then Some (OnlyAvailable item (Product.countInStock p))
      else if negb (JS.strict_eq (Product.price p) (price item))
      then Some (PriceChanged item (price item) (Product.price p))
      else None
  end.

Definition validateCartItems (catalog : Catalog) (this : Cart)
    : list Problem :=
  omap (check_item catalog) (items this).



(** [cartSchema.methods.getCartSummary]. *)
Record Summary := mkSummary {
  s_itemCount : nat;
  s_totalItems : Number;
  s_subtotal : Number;
  s_tax : Number;
  s_shipping : Number;
  s_couponDiscount : Number;
  s_couponCode : option string;
  s_total : Number;
  s_currency : string
}.

Definition getCartSummary (this : Cart) : Summary :=
  {| s_itemCount := itemCount this; s_totalItems := totalItems this;
     s_subtotal := subtotal this; s_tax := tax this;
     s_shipping := shipping this;
     s_couponDiscount := couponDiscount this;
     s_couponCode := couponCode this; s_total := total this;
     s_currency := currency this |}.

(** The cart requests of the claims; every one of them is a load of the
    stored cart followed by one method call. *)
Inductive Op :=
| OpAddItem (productId : ObjectId) (quantity' : Number)
            (variant' : option Variant.Variant)
| OpUpdateItemQuantity (productId : ObjectId) (quantity' : Number)
                       (variant' : option Variant.Variant)
| OpRemoveItem (productId : ObjectId) (variant' : option Variant.Variant)
| OpApplyCoupon (couponCode' : string)
| OpRemoveCoupon
| OpClearCart.

Definition step (catalog : Catalog) (now : Date) (op : Op) (c : Cart)
    : result Cart :=
  match op with
  | OpAddItem p q v => addItem catalog now p q v c
  | OpUpdateItemQuantity p q v => updateItemQuantity now p q v c
  | OpRemoveItem p v => removeItem now p v c
  | OpApplyCoupon code => applyCoupon now code c
  | OpRemoveCoupon => removeCoupon now c
  | OpClearCart => clearCart now c
  end.

(** The stored cart after a request: a method that throws stores nothing. *)
Definition stored_after (catalog : Catalog) (now : Date) (op : Op)
    (c : Cart) : Cart :=
  match step catalog now op c with
  | Ok c' => c'
  | Throw _ => c
  end.

(** A sequence of requests, each with the catalog and the clock it saw. *)
Fixpoint run (reqs : list (Catalog * Date * Op)) (c : Cart) : Cart :=
  match reqs with
  | [] => c
  | (catalog, now, op) :: rest => run rest (stored_after catalog now op c)
  end.

End Cart.

(* ================================================================== *)
(** ** Order model ([backend/models/Order.js]) *)
(* ================================================================== *)

Module Address.
Record Address := mk {
  name : string;
  address : string;
  city : string;
  postalCode : string;
  country : string;
  phone : string
}.
End Address.

Module PaymentResult.
Record PaymentResult := mk {
  id : string;
  status : string;
  update_time : option string;
  email_address : option string;
  paymentMethod : option string;
  transactionId : option string;
  currency : option string
}.

(** Casting a request object to [paymentResultSchema]: a missing
    [currency] takes the schema default.  (The [_id] the subdocument is
    given is not part of the model.) *)
Definition cast (pr : PaymentResult) : PaymentResult :=
  {| id := id pr; status := status pr; update_time := update_time pr;
     email_address := email_address pr; paymentMethod := paymentMethod pr;
     transactionId := transactionId pr;
     currency := match currency pr with
                 | Some c => Some c
                 | None => Some "USD"
                 end |}.
End PaymentResult.

(** The [status] enum of the order schema. *)
Inductive Status : Type :=
| pending | processing | shipped | delivered | cancelled | refunded.

Definition Status_eqb (a b : Status) : bool :=
  match a, b with
  | pending, pending | processing, processing | shipped, shipped
  | delivered, delivered | cancelled, cancelled | refunded, refunded => true
  | _, _ => false
  end.

(** The string a status interpolates to in a template literal. *)
Definition Status_toString (s : Status) : string :=
  match s with
  | pending => "pending"
  | processing => "processing"
  | shipped => "shipped"
  | delivered => "delivered"
  | cancelled => "cancelled"
  | refunded => "refunded"
  end.

(** One entry of [statusHistory]. *)
Module History.
Record HistoryEntry := mk {
  status : Status;
  timestamp : Date;
  note : string;
  updatedBy : option ObjectId
}.
End History.
Abbreviation HistoryEntry := History.HistoryEntry (only parsing).

(** [parseInt(s)] on ASCII strings: leading white space, an optional sign,
    an optional [0x] prefix, then the longest run of digits; [None] is
    [NaN]. *)
Module ParseInt.

Definition is_space (c : ascii) : bool :=
  let n := nat_of_ascii c in
  (n =? 32)%nat || ((9 <=? n)%nat && (n <=? 13)%nat).

Fixpoint skip_spaces (s : string) : string :=
  match s with
  | String c s' => if is_space c then skip_spaces s' else s
  | EmptyString => s
  end.

Definition digit_value (radix : Z) (c : ascii) : option Z :=
  let n := Z.of_nat (nat_of_ascii c) in
  let v :=
    if (48 <=? n)%Z && (n <=? 57)%Z then Some (n - 48)%Z
    else if (97 <=? n)%Z && (n <=? 122)%Z then Some (n - 87)%Z
    else if (65 <=? n)%Z && (n <=? 90)%Z then Some (n - 55)%Z
    else None in
  match v with
  | Some d => if (d <? radix)%Z then Some d else None
  | None => None
  end.

Fixpoint digits (radix : Z) (s : string) (acc : option Z) : option Z :=
  match s with
  | EmptyString => acc
  | String c s' =>
      match digit_value radix c with
      | Some d =>
          digits radix s'
            (Some (match acc with
                   | Some a => a * radix + d
                   | None => d
                   end)%Z)
      | None => acc
      end
  end.

Definition parseInt (s : string) : option Z :=
  let s1 := skip_spaces s in
  let '(sign, s2) :=
    match s1 with
    | String "-" r => ((-1)%Z, r)
    | String "+" r => (1%Z, r)
    | _ => (1%Z, s1)
    end in
  let '(radix, s3) :=
    match s2 with
    | String "0" (String "x" r) => (16%Z, r)
    | String "0" (String "X" r) => (16%Z, r)
    | _ => (10%Z, s2)
    end in
  option_map (Z.mul sign) (digits radix s3 None).

(** [n.toString()] for a number that is NaN or an integer. *)
Definition toString (n : option Z) : string :=
  match n with
  | Some z => pretty z
  | None => "NaN"
  end.

End ParseInt.

Module Order.

Record OrderItem := mkItem {
  product : ObjectId;
  name : string;
  image : string;
  price : Number;
  quantity : Number;
  variant : option Variant.Variant
}.

Record Order := mk {
  _id : ObjectId;
  user : ObjectId;
  orderNumber : string;
  orderItems : list OrderItem;
  shippingAddress : Address.Address;
  billingAddress : Address.Address;
  paymentMethod : string;
  paymentResult : option PaymentResult.PaymentResult;
  itemsPrice : Number;
  taxPrice : Number;
  shippingPrice : Number;
  discountAmount : Number;
  couponCode : option string;
  totalPrice : Number;
  currency : string;
  status : Status;
  isPaid : bool;
  paidAt : option Date;
  isDelivered : bool;
  deliveredAt : option Date;
  shippedAt : option Date;
  cancelledAt : option Date;
  refundedAt : option Date;
  cancellationReason : option string;
  refundReason : option string;
  notes : option string;
  trackingNumber : option string;
  carrier : option string;
  statusHistory : list HistoryEntry;
  createdAt : Date
}.

Definition set_orderNumber (v : string) (o : Order) : Order :=
  {| _id := _id o; user := user o; orderNumber := v;
     orderItems := orderItems o; shippingAddress := shippingAddress o;
     billingAddress := billingAddress o; paymentMethod := paymentMethod o;
     paymentResult := paymentResult o; itemsPrice := itemsPrice o;
     taxPrice := taxPrice o; shippingPrice := shippingPrice o;
     discountAmount := discountAmount o; couponCode := couponCode o;
     totalPrice := totalPrice o; currency := currency o;
     status := status o; isPaid := isPaid o; paidAt := paidAt o;
     isDelivered := isDelivered o; deliveredAt := deliveredAt o;
     shippedAt := shippedAt o; cancelledAt := cancelledAt o;
     refundedAt := refundedAt o;
     cancellationReason := cancellationReason o;
     refundReason := refundReason o; notes := notes o;
     trackingNumber := trackingNumber o; carrier := carrier o;
     statusHistory := statusHistory o; createdAt := createdAt o |}.

Definition set_paymentResult (v : option PaymentResult.PaymentResult) (o : Order) : Order :=
  {| _id := _id o; user := user o; orderNumber := orderNumber o;
     orderItems := orderItems o; shippingAddress := shippingAddress o;
     billingAddress := billingAddress o; paymentMethod := paymentMethod o;
     paymentResult := v; itemsPrice := itemsPrice o;
     taxPrice := taxPrice o; shippingPrice := shippingPrice o;
     discountAmount := discountAmount o; couponCode := couponCode o;
     totalPrice := totalPrice o; currency := currency o;
     status := status o; isPaid := isPaid o; paidAt := paidAt o;
     isDelivered := isDelivered o; deliveredAt := deliveredAt o;
     shippedAt := shippedAt o; cancelledAt := cancelledAt o;
     refundedAt := refundedAt o;
     cancellationReason := cancellationReason o;
     refundReason := refundReason o; notes := notes o;
     trackingNumber := trackingNumber o; carrier := carrier o;
     statusHistory := statusHistory o; createdAt := createdAt o |}.

Definition set_status (v : Status) (o : Order) : Order :=
  {| _id := _id o; user := user o; orderNumber := orderNumber o;
     orderItems := orderItems o; shippingAddress := shippingAddress o;
     billingAddress := billingAddress o; paymentMethod := paymentMethod o;
     paymentResult := paymentResult o; itemsPrice := itemsPrice o;
     taxPrice := taxPrice o; shippingPrice := shippingPrice o;
     discountAmount := discountAmount o; couponCode := couponCode o;
     totalPrice := totalPrice o; currency := currency o; status := v;
     isPaid := isPaid o; paidAt := paidAt o; isDelivered := isDelivered o;
     deliveredAt := deliveredAt o; shippedAt := shippedAt o;
     cancelledAt := cancelledAt o; refundedAt := refundedAt o;
     cancellationReason := cancellationReason o;
     refundReason := refundReason o; notes := notes o;
     trackingNumber := trackingNumber o; carrier := carrier o;
     statusHistory := statusHistory o; createdAt := createdAt o |}.

Definition set_isPaid (v : bool) (o : Order) : Order :=
  {| _id := _id o; user := user o; orderNumber := orderNumber o;
     orderItems := orderItems o; shippingAddress := shippingAddress o;
     billingAddress := billingAddress o; paymentMethod := paymentMethod o;
     paymentResult := paymentResult o; itemsPrice := itemsPrice o;
     taxPrice := taxPrice o; shippingPrice := shippingPrice o;
     discountAmount := discountAmount o; couponCode := couponCode o;
     totalPrice := totalPrice o; currency := currency o;
     status := status o; isPaid := v; paidAt := paidAt o;
     isDelivered := isDelivered o; deliveredAt := deliveredAt o;
     shippedAt := shippedAt o; cancelledAt := cancelledAt o;
     refundedAt := refundedAt o;
     cancellationReason := cancellationReason o;
     refundReason := refundReason o; notes := notes o;
     trackingNumber := trackingNumber o; carrier := carrier o;
     statusHistory := statusHistory o; createdAt := createdAt o |}.

Definition set_paidAt (v : option Date) (o : Order) : Order :=
  {| _id := _id o; user := user o; orderNumber := orderNumber o;
     orderItems := orderItems o; shippingAddress := shippingAddress o;
     billingAddress := billingAddress o; paymentMethod := paymentMethod o;
     paymentResult := paymentResult o; itemsPrice := itemsPrice o;
     taxPrice := taxPrice o; shippingPrice := shippingPrice o;
     discountAmount := discountAmount o; couponCode := couponCode o;
     totalPrice := totalPrice o; currency := currency o;
     status := status o; isPaid := isPaid o; paidAt := v;
     isDelivered := isDelivered o; deliveredAt := deliveredAt o;
     shippedAt := shippedAt o; cancelledAt := cancelledAt o;
     refundedAt := refundedAt o;
     cancellationReason := cancellationReason o;
     refundReason := refundReason o; notes := notes o;
     trackingNumber := trackingNumber o; carrier := carrier o;
     statusHistory := statusHistory o; createdAt := createdAt o |}.

Definition set_isDelivered (v : bool) (o : Order) : Order :=
  {| _id := _id o; user := user o; orderNumber := orderNumber o;
     orderItems := orderItems o; shippingAddress := shippingAddress o;
     billingAddress := billingAddress o; paymentMethod := paymentMethod o;
     paymentResult := paymentResult o; itemsPrice := itemsPrice o;
     taxPrice := taxPrice o; shippingPrice := shippingPrice o;
     discountAmount := discountAmount o; couponCode := couponCode o;
     totalPrice := totalPrice o; currency := currency o;
     status := status o; isPaid := isPaid o; paidAt := paidAt o;
     isDelivered := v; deliveredAt := deliveredAt o;
     shippedAt := shippedAt o; cancelledAt := cancelledAt o;
     refundedAt := refundedAt o;
     cancellationReason := cancellationReason o;
     refundReason := refundReason o; notes := notes o;
     trackingNumber := trackingNumber o; carrier := carrier o;
     statusHistory := statusHistory o; createdAt := createdAt o |}.

Definition set_deliveredAt (v : option Date) (o : Order) : Order :=
  {| _id := _id o; user := user o; orderNumber := orderNumber o;
     orderItems := orderItems o; shippingAddress := shippingAddress o;
     billingAddress := billingAddress o; paymentMethod := paymentMethod o;
     paymentResult := paymentResult o; itemsPrice := itemsPrice o;
     taxPrice := taxPrice o; shippingPrice := shippingPrice o;
     discountAmount := discountAmount o; couponCode := couponCode o;
     totalPrice := totalPrice o; currency := currency o;
     status := status o; isPaid := isPaid o; paidAt := paidAt o;
     isDelivered := isDelivered o; deliveredAt := v;
     shippedAt := shippedAt o; cancelledAt := cancelledAt o;
     refundedAt := refundedAt o;
     cancellationReason := cancellationReason o;
     refundReason := refundReason o; notes := notes o;
     trackingNumber := trackingNumber o; carrier := carrier o;
     statusHistory := statusHistory o; createdAt := createdAt o |}.

Definition set_shippedAt (v : option Date) (o : Order) : Order :=
  {| _id := _id o; user := user o; orderNumber := orderNumber o;
     orderItems := orderItems o; shippingAddress := shippingAddress o;
     billingAddress := billingAddress o; paymentMethod := paymentMethod o;
     paymentResult := paymentResult o; itemsPrice := itemsPrice o;
     taxPrice := taxPrice o; shippingPrice := shippingPrice o;
     discountAmount := discountAmount o; couponCode := couponCode o;
     totalPrice := totalPrice o; currency := currency o;
     status := status o; isPaid := isPaid o; paidAt := paidAt o;
     isDelivered := isDelivered o; deliveredAt := deliveredAt o;
     shippedAt := v; cancelledAt := cancelledAt o;
     refundedAt := refundedAt o;
     cancellationReason := cancellationReason o;
     refundReason := refundReason o; notes := notes o;
     trackingNumber := trackingNumber o; carrier := carrier o;
     statusHistory := statusHistory o; createdAt := createdAt o |}.

Definition set_cancelledAt (v : option Date) (o : Order) : Order :=
  {| _id := _id o; user := user o; orderNumber := orderNumber o;
     orderItems := orderItems o; shippingAddress := shippingAddress o;
     billingAddress := billingAddress o; paymentMethod := paymentMethod o;
     paymentResult := paymentResult o; itemsPrice := itemsPrice o;
     taxPrice := taxPrice o; shippingPrice := shippingPrice o;
     discountAmount := discountAmount o; couponCode := couponCode o;
     totalPrice := totalPrice o; currency := currency o;
     status := status o; isPaid := isPaid o; paidAt := paidAt o;
     isDelivered := isDelivered o; deliveredAt := deliveredAt o;
     shippedAt := shippedAt o; cancelledAt := v;
     refundedAt := refundedAt o;
     cancellationReason := cancellationReason o;
     refundReason := refundReason o; notes := notes o;
     trackingNumber := trackingNumber o; carrier := carrier o;
     statusHistory := statusHistory o; createdAt := createdAt o |}.

Definition set_refundedAt (v : option Date) (o : Order) : Order :=
  {| _id := _id o; user := user o; orderNumber := orderNumber o;
     orderItems := orderItems o; shippingAddress := shippingAddress o;
     billingAddress := billingAddress o; paymentMethod := paymentMethod o;
     paymentResult := paymentResult o; itemsPrice := itemsPrice o;
     taxPrice := taxPrice o; shippingPrice := shippingPrice o;
     discountAmount := discountAmount o; couponCode := couponCode o;
     totalPrice := totalPrice o; currency := currency o;
     status := status o; isPaid := isPaid o; paidAt := paidAt o;
     isDelivered := isDelivered o; deliveredAt := deliveredAt o;
     shippedAt := shippedAt o; cancelledAt := cancelledAt o;
     refundedAt := v; cancellationReason := cancellationReason o;
     refundReason := refundReason o; notes := notes o;
     trackingNumber := trackingNumber o; carrier := carrier o;
     statusHistory := statusHistory o; createdAt := createdAt o |}.

Definition set_cancellationReason (v : option string) (o : Order) : Order :=
  {| _id := _id o; user := user o; orderNumber := orderNumber o;
     orderItems := orderItems o; shippingAddress := shippingAddress o;
     billingAddress := billingAddress o; paymentMethod := paymentMethod o;
     paymentResult := paymentResult o; itemsPrice := itemsPrice o;
     taxPrice := taxPrice o; shippingPrice := shippingPrice o;
     discountAmount := discountAmount o; couponCode := couponCode o;
     totalPrice := totalPrice o; currency := currency o;
     status := status o; isPaid := isPaid o; paidAt := paidAt o;
     isDelivered := isDelivered o; deliveredAt := deliveredAt o;
     shippedAt := shippedAt o; cancelledAt := cancelledAt o;
     refundedAt := refundedAt o; cancellationReason := v;
     refundReason := refundReason o; notes := notes o;
     trackingNumber := trackingNumber o; carrier := carrier o;
     statusHistory := statusHistory o; createdAt := createdAt o |}.

Definition set_refundReason (v : option string) (o : Order) : Order :=
  {| _id := _id o; user := user o; orderNumber := orderNumber o;
     orderItems := orderItems o; shippingAddress := shippingAddress o;
     billingAddress := billingAddress o; paymentMethod := paymentMethod o;
     paymentResult := paymentResult o; itemsPrice := itemsPrice o;
     taxPrice := taxPrice o; shippingPrice := shippingPrice o;
     discountAmount := discountAmount o; couponCode := couponCode o;
     totalPrice := totalPrice o; currency := currency o;
     status := status o; isPaid := isPaid o; paidAt := paidAt o;
     isDelivered := isDelivered o; deliveredAt := deliveredAt o;
     shippedAt := shippedAt o; cancelledAt := cancelledAt o;
     refundedAt := refundedAt o;
     cancellationReason := cancellationReason o; refundReason := v;
     notes := notes o; trackingNumber := trackingNumber o;
     carrier := carrier o; statusHistory := statusHistory o;
     createdAt := createdAt o |}.

Definition set_trackingNumber (v : option string) (o : Order) : Order :=
  {| _id := _id o; user := user o; orderNumber := orderNumber o;
     orderItems := orderItems o; shippingAddress := shippingAddress o;
     billingAddress := billingAddress o; paymentMethod := paymentMethod o;
     paymentResult := paymentResult o; itemsPrice := itemsPrice o;
     taxPrice := taxPrice o; shippingPrice := shippingPrice o;
     discountAmount := discountAmount o; couponCode := couponCode o;
     totalPrice := totalPrice o; currency := currency o;
     status := status o; isPaid := isPaid o; paidAt := paidAt o;
     isDelivered := isDelivered o; deliveredAt := deliveredAt o;
     shippedAt := shippedAt o; cancelledAt := cancelledAt o;
     refundedAt := refundedAt o;
     cancellationReason := cancellationReason o;
     refundReason := refundReason o; notes := notes o; trackingNumber := v;
     carrier := carrier o; statusHistory := statusHistory o;
     createdAt := createdAt o |}.

Definition set_carrier (v : option string) (o : Order) : Order :=
  {| _id := _id o; user := user o; orderNumber := orderNumber o;
     orderItems := orderItems o; shippingAddress := shippingAddress o;
     billingAddress := billingAddress o; paymentMethod := paymentMethod o;
     paymentResult := paymentResult o; itemsPrice := itemsPrice o;
     taxPrice := taxPrice o; shippingPrice := shippingPrice o;
     discountAmount := discountAmount o; couponCode := couponCode o;
     totalPrice := totalPrice o; currency := currency o;
     status := status o; isPaid := isPaid o; paidAt := paidAt o;
     isDelivered := isDelivered o; deliveredAt := deliveredAt o;
     shippedAt := shippedAt o; cancelledAt := cancelledAt o;
     refundedAt := refundedAt o;
     cancellationReason := cancellationReason o;
     refundReason := refundReason o; notes := notes o;
     trackingNumber := trackingNumber o; carrier := v;
     statusHistory := statusHistory o; createdAt := createdAt o |}.

Definition set_statusHistory (v : list HistoryEntry) (o : Order) : Order :=
  {| _id := _id o; user := user o; orderNumber := orderNumber o;
     orderItems := orderItems o; shippingAddress := shippingAddress o;
     billingAddress := billingAddress o; paymentMethod := paymentMethod o;
     paymentResult := paymentResult o; itemsPrice := itemsPrice o;
     taxPrice := taxPrice o; shippingPrice := shippingPrice o;
     discountAmount := discountAmount o; couponCode := couponCode o;
     totalPrice := totalPrice o; currency := currency o;
     status := status o; isPaid := isPaid o; paidAt := paidAt o;
     isDelivered := isDelivered o; deliveredAt := deliveredAt o;
     shippedAt := shippedAt o; cancelledAt := cancelledAt o;
     refundedAt := refundedAt o;
     cancellationReason := cancellationReason o;
     refundReason := refundReason o; notes := notes o;
     trackingNumber := trackingNumber o; carrier := carrier o;
     statusHistory := v; createdAt := createdAt o |}.

Definition set_createdAt (v : Date) (o : Order) : Order :=
  {| _id := _id o; user := user o; orderNumber := orderNumber o;
     orderItems := orderItems o; shippingAddress := shippingAddress o;
     billingAddress := billingAddress o; paymentMethod := paymentMethod o;
     paymentResult := paymentResult o; itemsPrice := itemsPrice o;
     taxPrice := taxPrice o; shippingPrice := shippingPrice o;
     discountAmount := discountAmount o; couponCode := couponCode o;
     totalPrice := totalPrice o; currency := currency o;
     status := status o; isPaid := isPaid o; paidAt := paidAt o;
     isDelivered := isDelivered o; deliveredAt := deliveredAt o;
     shippedAt := shippedAt o; cancelledAt := cancelledAt o;
     refundedAt := refundedAt o;
     cancellationReason := cancellationReason o;
     refundReason := refundReason o; notes := notes o;
     trackingNumber := trackingNumber o; carrier := carrier o;
     statusHistory := statusHistory o; createdAt := v |}.
(** The virtual [totalItems]. *)
Definition totalItems (o : Order) : Number :=
  fold_left (fun total item => PrimFloat.add total (quantity item))
            (orderItems o) 0%float.

(** An in-memory document: the fields, whether it was never stored
    ([isNew]), whether [status] was assigned a different value since it
    was loaded ([isModified('status')]), and whether [paymentResult] was
    assigned since it was loaded. *)
Record Document := mkDoc {
  doc : Order;
  isNew : bool;
  status_modified : bool;
  paymentResult_assigned : bool
}.

(** [Order.findById(id)] followed by field reads. *)
Definition load (o : Order) : Document :=
  {| doc := o; isNew := false; status_modified := false;
     paymentResult_assigned := false |}.

(** [new Order({...})]. *)
Definition new (o : Order) : Document :=
  {| doc := o; isNew := true; status_modified := false;
     paymentResult_assigned := false |}.

(** [order.status = s]: the path is marked modified when the value
    changes. *)
Definition assign_status (s : Status) (d : Document) : Document :=
  {| doc := set_status s (doc d); isNew := isNew d;
     status_modified := status_modified d || negb (Status_eqb (status (doc d)) s);
     paymentResult_assigned := paymentResult_assigned d |}.

(** Assignments and pushes that touch no tracked path. *)
Definition update (f : Order -> Order) (d : Document) : Document :=
  {| doc := f (doc d); isNew := isNew d; status_modified := status_modified d;
     paymentResult_assigned := paymentResult_assigned d |}.

(** [order.paymentResult = v]: the object is cast to the subdocument
    schema. *)
Definition assign_paymentResult (v : PaymentResult.PaymentResult)
    (d : Document) : Document :=
  {| doc := set_paymentResult (Some (PaymentResult.cast v)) (doc d);
     isNew := isNew d; status_modified := status_modified d;
     paymentResult_assigned := true |}.

Definition push_history (e : HistoryEntry) (o : Order) : Order :=
  set_statusHistory (statusHistory o ++ [e]) o.

(** *** The order-number hook *)

(** [createdAt] lies in [[todayStart, todayEnd)], the bounds being
    [new Date(y, m, d)] and [new Date(y, m, d + 1)]. *)
Definition created_today (date : Date) (o : Order) : bool :=
  let todayStart := mkDate (getFullYear date) (getMonth date) (getDate date) 0 in
  let todayEnd := mkDate (getFullYear date) (getMonth date) (getDate date + 1) 0 in
  Date_leb todayStart (createdAt o) && Date_ltb (createdAt o) todayEnd.

(** [findOne({ createdAt: ... }).sort({ createdAt: -1 })]: the matching
    order with the greatest [createdAt]. *)
Definition later_of (best : option Order) (o : Order) : option Order :=
  match best with
  | None => Some o
  | Some b => if Date_ltb (createdAt b) (createdAt o) then Some o else Some b
  end.

Definition findLastToday (date : Date) (orders : list Order) : option Order :=
  fold_left (fun best o => if created_today date o then later_of best o else best)
            orders None.

Definition next_sequence (lastOrder : option Order) : option Z :=
  match lastOrder with
  | Some o =>
      match orderNumber o with
      | EmptyString => Some 1%Z
      | _ => option_map (fun lastSequence => lastSequence + 1)%Z
               (ParseInt.parseInt (substr_last 4 (orderNumber o)))
      end
  | None => Some 1%Z
  end.

Definition format_orderNumber (date : Date) (sequence : option Z) : string :=
  let year := substr_last 2 (pretty (getFullYear date)) in
  let month := padStart0 2 (pretty (getMonth date + 1)%Z) in
  let day := padStart0 2 (pretty (getDate date)) in
  "ORD" ++ year ++ month ++ day ++ padStart0 4 (ParseInt.toString sequence).

Definition generate_orderNumber (date : Date) (orders : list Order) : string :=
  format_orderNumber date (next_sequence (findLastToday date orders)).

(** *** The three pre-save hooks, in registration order *)

Definition hook_orderNumber (now : Date) (orders : list Order)
    (d : Document) : Document :=
  if isNew d then update (set_orderNumber (generate_orderNumber now orders)) d
  else d.

Definition stamp_dates (now : Date) (o : Order) : Order :=
  match status o with
  | shipped =>
      match shippedAt o with None => set_shippedAt (Some now) o | Some _ => o end
  | delivered =>
      set_isDelivered true
        (match deliveredAt o with
         | None => set_deliveredAt (Some now) o
         | Some _ => o
         end)
  | cancelled =>
      match cancelledAt o with None => set_cancelledAt (Some now) o | Some _ => o end
  | refunded =>
      match refundedAt o with None => set_refundedAt (Some now) o | Some _ => o end
  | _ => o
  end.

Definition hook_statusHistory (now : Date) (d : Document) : Document :=
  if status_modified d && negb (isNew d) then
    update
      (fun o =>
         stamp_dates now
           (push_history
              (History.mk (status o) now
                 ("Status updated to " ++ Status_toString (status o)) None)
              o))
      d
  else d.

Definition hook_created (now : Date) (d : Document) : Document :=
  if isNew d then
    update (fun o => push_history (History.mk (status o) now "Order created" None) o) d
  else d.

(** Storing a document: a new one is inserted at the end of the collection
    with its [createdAt] timestamp, a loaded one replaces the stored
    document that has its [_id]. *)
Definition replace (o : Order) (orders : list Order) : list Order :=
  map (fun x => if String.eqb (_id x) (_id o) then o else x) orders.

Definition findById (id : ObjectId) (orders : list Order) : option Order :=
  find (fun o => String.eqb (_id o) id) orders.

(** *** Schema validation *)

(** [required] on a [String] path refuses a missing value and the empty
    string. *)
Definition required_String (s : string) : bool := negb (String.eqb s "").

Definition paymentMethod_enum : list string :=
  ["stripe"; "razorpay"; "paypal"; "cash_on_delivery"].

(** [paymentResultSchema]: [paymentMethod] is required and one of the
    enum. *)
Definition validate_paymentResult (pr : PaymentResult.PaymentResult) : bool :=
  match PaymentResult.paymentMethod pr with
  | Some m => existsb (String.eqb m) paymentMethod_enum
  | None => false
  end.

Definition validate_item (i : OrderItem) : bool :=
  required_String (name i) && required_String (image i)
  && JS.ge (price i) 0%float && JS.ge (quantity i) 1%float.

Definition validate_address (a : Address.Address) : bool :=
  required_String (Address.name a) && required_String (Address.address a)
  && required_String (Address.city a) && required_String (Address.postalCode a)
  && required_String (Address.country a) && required_String (Address.phone a).

(** Every validator of [orderSchema], as a new document meets them. *)
Definition validate_new (o : Order) : bool :=
  required_String (orderNumber o)
  && forallb validate_item (orderItems o)
  && validate_address (shippingAddress o)
  && validate_address (billingAddress o)
  && existsb (String.eqb (paymentMethod o)) paymentMethod_enum
  && match paymentResult o with
     | Some pr => validate_paymentResult pr
     | None => true
     end
  && JS.ge (itemsPrice o) 0%float && JS.ge (taxPrice o) 0%float
  && JS.ge (shippingPrice o) 0%float && JS.ge (discountAmount o) 0%float
  && JS.ge (totalPrice o) 0%float
  && match notes o with
     | Some n => (String.length n <=? 1000)%nat
     | None => true
     end.

(** The validation [save] runs before any pre-save hook.  A new document
    meets every validator.  The paths of a loaded document that no
    handler assigned hold what an earlier validation accepted, and the
    paths the handlers assign are typed by their enum, or carry no
    validator, with one exception: [paymentResult], which comes from a
    request.  For a loaded document the model runs the validators of that
    path when it was assigned. *)
Definition validate (d : Document) : bool :=
  if isNew d then validate_new (doc d)
  else if paymentResult_assigned d then
    match paymentResult (doc d) with
    | Some pr => validate_paymentResult pr
    | None => true
    end
  else true.

(** [order.save()]: validation, then the three hooks, then the write.  A
    rejected document is not written. *)
Definition save (now : Date) (orders : list Order) (d : Document)
    : result (list Order * Document) :=
  if validate d then
    let d1 := hook_orderNumber now orders d in
    let d2 := hook_statusHistory now d1 in
    let d3 := hook_created now d2 in
    let o := if isNew d3 then set_createdAt now (doc d3) else doc d3 in
    Ok (if isNew d3 then (orders ++ [o])%list else replace o orders, load o)
  else Throw ValidationError.

(** [orderSchema.methods.updatePaymentStatus]. *)
Definition updatePaymentStatus (now : Date) (orders : list Order)
    (paymentResult' : PaymentResult.PaymentResult) (this : Document)
    : result (list Order * Document) :=
  let d1 := assign_paymentResult paymentResult'
              (update (fun o => set_paidAt (Some now) (set_isPaid true o)) this) in
  let d2 := match status (doc d1) with
            | pending => assign_status processing d1
            | _ => d1
            end in
  save now orders d2.

(** [orderSchema.methods.cancelOrder]. *)
Definition cancelOrder (now : Date) (orders : list Order)
    (reason : string) (cancelledBy : ObjectId) (this : Document)
    : result (list Order * Document) :=
  match status (doc this) with
  | shipped | delivered =>
      Throw (Error_ "Cannot cancel shipped or delivered orders")
  | _ =>
      let d1 := assign_status cancelled this in
      let d2 := update (fun o => set_cancellationReason (Some reason)
                                   (set_cancelledAt (Some now) o)) d1 in
      let d3 := update (push_history
                          (History.mk cancelled now
                             ("Order cancelled: " ++ reason) (Some cancelledBy))) d2 in
      save now orders d3
  end.

(** [orderSchema.methods.calculateShipping]. *)
Definition calculateShipping (this : Order) : Number :=
  let totalWeight :=
    fold_left (fun total item =>
                 PrimFloat.add total (PrimFloat.mul (quantity item) 0.5%float))
              (orderItems this) 0%float in
  if JS.ge (itemsPrice this) 100%float then 0%float
  else if JS.le totalWeight 2%float then 5.99%float
  else if JS.le totalWeight 5%float then 9.99%float
  else 15.99%float.

End Order.

(* ================================================================== *)
(** ** Route handlers ([backend/routes]) *)
(* ================================================================== *)

(** The authenticated user that [protect] puts on the request. *)
Module User.
Record User := mk {
  _id : ObjectId;
  email : string;
  isAdmin : bool
}.
End User.

(** The three collections the handlers read and write. *)
Record State := mkState {
  products : gmap string Product.Product;
  orders : list Order.Order;
  carts : gmap string Cart.Cart
}.

(** What a handler answers: a JSON body sent with [statusCode], or an error
    thrown to the error middleware after [res.status(statusCode)] ([None]
    when the handler set no status before throwing). *)
Inductive Response : Type :=
| Json (statusCode : nat) (message : string) (order : option Order.Order)
| Failure (statusCode : option nat) (e : Error).

(** *** Request validation (express-validator) *)

Module Validator.

Definition isHexDigit (c : ascii) : bool :=
  match ParseInt.digit_value 16 c with Some _ => true | None => false end.

Fixpoint all_chars (p : ascii -> bool) (s : string) : bool :=
  match s with
  | EmptyString => true
  | String c s' => p c && all_chars p s'
  end.

(** [isMongoId]: 24 hexadecimal characters. *)
Definition isMongoId (s : string) : bool :=
  (String.length s =? 24)%nat && all_chars isHexDigit s.

(** A number whose decimal text is an integer literal: an integral value
    printed without an exponent. *)
Definition is_integer (f : Number) : bool :=
  match Prim2SF f with
  | S754_zero _ => true
  | S754_finite _ m e =>
      ((0 <=? e)%Z || (Z.pos m mod 2 ^ (- e) =? 0)%Z)
      && PrimFloat.ltb (PrimFloat.abs f) 1e21%float
  | _ => false
  end.

(** [isInt({ min, max })] on a JSON number. *)
Definition isInt (min : Number) (max : option Number) (f : Number) : bool :=
  is_integer f && JS.ge f min
  && match max with Some m => JS.le f m | None => true end.

Definition notEmpty (s : string) : bool :=
  negb (String.eqb s "").

(** [errors.array().map(error => error.msg).join(', ')]. *)
Fixpoint join (msgs : list string) : string :=
  match msgs with
  | [] => ""
  | [m] => m
  | m :: rest => m ++ ", " ++ join rest
  end.

Definition check (ok : bool) (msg : string) : list string :=
  if ok then [] else [msg].

End Validator.

(** *** POST /api/orders *)

Record ReqItem := mkReqItem {
  r_product : ObjectId;
  r_quantity : Number;
  r_variant : option Variant.Variant
}.

Record OrderBody := mkOrderBody {
  b_orderItems : list ReqItem;
  b_shippingAddress : Address.Address;
  b_billingAddress : option Address.Address;
  b_paymentMethod : string;
  b_couponCode : option string;
  b_notes : option string
}.

Definition paymentMethods : list string :=
  ["stripe"; "razorpay"; "paypal"; "cash_on_delivery"].

Definition isIn (s : string) (l : list string) : bool :=
  existsb (String.eqb s) l.

Definition createOrder_errors (body : OrderBody) : list string :=
  let a := b_shippingAddress body in
  (Validator.check (negb (length (b_orderItems body) =? 0)%nat)
     "Order must contain at least one item"
   ++ flat_map (fun i => Validator.check (Validator.isMongoId (r_product i))
                           "Invalid product ID") (b_orderItems body)
   ++ flat_map (fun i => Validator.check (Validator.isInt 1%float None (r_quantity i))
                           "Quantity must be at least 1") (b_orderItems body)
   ++ Validator.check (Validator.notEmpty (Address.name a)) "Shipping name is required"
   ++ Validator.check (Validator.notEmpty (Address.address a)) "Shipping address is required"
   ++ Validator.check (Validator.notEmpty (Address.city a)) "City is required"
   ++ Validator.check (Validator.notEmpty (Address.postalCode a)) "Postal code is required"
   ++ Validator.check (Validator.notEmpty (Address.country a)) "Country is required"
   ++ Validator.check (Validator.notEmpty (Address.phone a)) "Phone number is required"
   ++ Validator.check (isIn (b_paymentMethod body) paymentMethods)
        "Invalid payment method")%list.

(** The first loop of the handler: validate every line against the catalog,
    accumulate [itemsPrice] and snapshot the line. *)
Fixpoint process_items (catalog : gmap string Product.Product)
    (orderItems : list ReqItem) (itemsPrice : Number)
    (processedItems : list Order.OrderItem)
    : (nat * Error) + (Number * list Order.OrderItem) :=
  match orderItems with
  | [] => inr (itemsPrice, processedItems)
  | item :: rest =>
      match catalog !! r_product item with
      | None => inl (404%nat, Error_ ("Product not found: " ++ r_product item))
      | Some p =>
          if negb (Product.isActive p)
          then inl (404%nat, Error_ ("Product not found: " ++ r_product item))
          else if JS.lt (Product.countInStock p) (r_quantity item)
          then inl (400%nat,
                    Error_ ("Insufficient stock for product: " ++ Product.name p))
          else
            let itemTotal := PrimFloat.mul (Product.price p) (r_quantity item) in
            process_items catalog rest (PrimFloat.add itemsPrice itemTotal)
              (processedItems ++
               [ {| Order.product := Product._id p;
                    Order.name := Product.name p;
                    Order.image := match Product.images p with
                                   | url :: _ => url
                                   | [] => ""
                                   end;
                    Order.price := Product.price p;
                    Order.quantity := r_quantity item;
                    Order.variant := r_variant item |} ])%list
      end
  end.

(** The coupon step of the checkout: an unknown code or an unmet minimum
    gives no discount. *)
Definition order_discount (couponCode : option string) (itemsPrice : Number)
    : Number :=
  match couponCode with
  | None | Some EmptyString => 0%float
  | Some code =>
      match Cart.coupons (toUpperCase code) with
      | Some coupon =>
          if JS.ge itemsPrice (Cart.minAmount coupon) then
            match Cart.type coupon with
            | Cart.percentage =>
                PrimFloat.div (PrimFloat.mul itemsPrice (Cart.value coupon)) 100%float
            | Cart.fixed => Cart.value coupon
            end
          else 0%float
      | None => 0%float
      end
  end.

(** The second loop: [product.updateStock(item.quantity, op)] line by line;
    the first throw stops the loop with the catalog as written so far.  A
    missing product makes [product.updateStock] a [TypeError] when
    [guarded] is false and is skipped when it is true. *)
Fixpoint update_stocks (guarded : bool) (operation : string)
    (lines : list (ObjectId * Number)) (catalog : gmap string Product.Product)
    : gmap string Product.Product * option Error :=
  match lines with
  | [] => (catalog, None)
  | (id, q) :: rest =>
      match catalog !! id with
      | None =>
          if guarded then update_stocks guarded operation rest catalog
          else (catalog, Some (Error_ "TypeError"))
      | Some p =>
          match Product.updateStock q operation p with
          | Throw e => (catalog, Some e)
          | Ok p' => update_stocks guarded operation rest (<[id := p']> catalog)
          end
      end
  end.

(** The object handed to [new Order({...})], cast to the schema: a money
    field given NaN keeps its default 0. *)
Definition new_order (newId : ObjectId) (user : User.User) (body : OrderBody)
    (processedItems : list Order.OrderItem)
    (itemsPrice taxPrice shippingPrice discountAmount totalPrice : Number)
    (now : Date) : Order.Order :=
  {| Order._id := newId;
     Order.user := User._id user;
     Order.orderNumber := "";
     Order.orderItems := processedItems;
     Order.shippingAddress := b_shippingAddress body;
     Order.billingAddress :=
       match b_billingAddress body with
       | Some a => a
       | None => b_shippingAddress body
       end;
     Order.paymentMethod := b_paymentMethod body;
     Order.paymentResult := None;
     Order.itemsPrice := assign_Number 0%float itemsPrice;
     Order.taxPrice := assign_Number 0%float taxPrice;
     Order.shippingPrice := assign_Number 0%float shippingPrice;
     Order.discountAmount := assign_Number 0%float discountAmount;
     Order.couponCode := b_couponCode body;
     Order.totalPrice := assign_Number 0%float totalPrice;
     Order.currency := "USD";
     Order.status := pending;
     Order.isPaid := false;
     Order.paidAt := None;
     Order.isDelivered := false;
     Order.deliveredAt := None;
     Order.shippedAt := None;
     Order.cancelledAt := None;
     Order.refundedAt := None;
     Order.cancellationReason := None;
     Order.refundReason := None;
     Order.notes := b_notes body;
     Order.trackingNumber := None;
     Order.carrier := None;
     Order.statusHistory := [];
     Order.createdAt := now |}.

(** The pricing of the handler, from [itemsPrice] to the order document. *)
Definition priced_order (now : Date) (newId : ObjectId) (user : User.User)
    (body : OrderBody) (itemsPrice : Number)
    (processedItems : list Order.OrderItem) : Order.Order :=
  let taxPrice := PrimFloat.mul itemsPrice 0.08%float in
  let shippingPrice :=
    if JS.ge itemsPrice 100%float then 0%float else 10%float in
  let discountAmount := order_discount (b_couponCode body) itemsPrice in
  let totalPrice :=
    PrimFloat.sub
      (PrimFloat.add (PrimFloat.add itemsPrice taxPrice) shippingPrice)
      discountAmount in
  new_order newId user body processedItems itemsPrice taxPrice
            shippingPrice discountAmount totalPrice now.

(** The handler; [newId] is the identifier the [Order] constructor draws.
    The document is built without an [orderNumber]: the handler leaves it
    to the pre-save hook. *)
Definition createOrder (now : Date) (newId : ObjectId) (user : User.User)
    (body : OrderBody) (st : State) : Response * State :=
  match createOrder_errors body with
  | (_ :: _) as errs =>
      (Failure (Some 400%nat) (Error_ (Validator.join errs)), st)
  | [] =>
      match b_orderItems body with
      | [] => (Failure (Some 400%nat) (Error_ "No order items provided"), st)
      | orderItems =>
          match process_items (products st) orderItems 0%float [] with
          | inl (code, e) => (Failure (Some code) e, st)
          | inr (itemsPrice, processedItems) =>
              let order :=
                priced_order now newId user body itemsPrice processedItems in
              match Order.save now (orders st) (Order.new order) with
              | Throw e => (Failure None e, st)
              | Ok (orders', createdOrder) =>
                  match update_stocks false "subtract"
                          (map (fun i => (r_product i, r_quantity i)) orderItems)
                          (products st) with
                  | (products', Some e) =>
                      (Failure None e, mkState products' orders' (carts st))
                  | (products', None) =>
                      (Json 201 "Order created successfully"
                            (Some (Order.doc createdOrder)),
                       mkState products' orders'
                               (delete (User._id user) (carts st)))
                  end
              end
          end
      end
  end.

(** Writing back the collection a model method returned. *)
Definition with_orders (orders' : list Order.Order) (st : State) : State :=
  mkState (products st) orders' (carts st).

(** *** PUT /api/orders/:id/pay *)

Definition payOrder_errors (paymentResult : PaymentResult.PaymentResult)
    : list string :=
  (Validator.check (Validator.notEmpty (PaymentResult.id paymentResult))
     "Payment ID is required"
   ++ Validator.check (Validator.notEmpty (PaymentResult.status paymentResult))
        "Payment status is required")%list.

Definition payOrder (now : Date) (user : User.User) (id : ObjectId)
    (paymentResult : PaymentResult.PaymentResult) (st : State)
    : Response * State :=
  match payOrder_errors paymentResult with
  | (_ :: _) as errs =>
      (Failure (Some 400%nat) (Error_ (Validator.join errs)), st)
  | [] =>
      match Order.findById id (orders st) with
      | None => (Failure (Some 404%nat) (Error_ "Order not found"), st)
      | Some order =>
          if negb (String.eqb (Order.user order) (User._id user))
          then (Failure (Some 403%nat)
                        (Error_ "Not authorized to access this order"), st)
          else if Order.isPaid order
          then (Failure (Some 400%nat) (Error_ "Order is already paid"), st)
          else
            match Order.updatePaymentStatus now (orders st) paymentResult
                                            (Order.load order) with
            | Throw e => (Failure None e, st)
            | Ok (orders', d) =>
                (Json 200 "Order paid successfully" (Some (Order.doc d)),
                 with_orders orders' st)
            end
      end
  end.

(** *** PUT /api/orders/:id/cancel *)

(** [e.message], which the [catch] block rethrows. *)
Definition rethrow (e : Error) : Error := e.

Definition cancelOrderRoute (now : Date) (user : User.User) (id : ObjectId)
    (reason : option string) (st : State) : Response * State :=
  match Order.findById id (orders st) with
  | None => (Failure (Some 404%nat) (Error_ "Order not found"), st)
  | Some order =>
      if negb (String.eqb (Order.user order) (User._id user))
      then (Failure (Some 403%nat)
                    (Error_ "Not authorized to access this order"), st)
      else
        let reason' :=
          match reason with
          | None | Some EmptyString => "Cancelled by user"
          | Some r => r
          end in
        match Order.cancelOrder now (orders st) reason' (User._id user)
                                (Order.load order) with
        | Throw e => (Failure (Some 400%nat) (rethrow e), st)
        | Ok (orders', d) =>
            match update_stocks true "add"
                    (map (fun i => (Order.product i, Order.quantity i))
                         (Order.orderItems (Order.doc d)))
                    (products st) with
            | (products', Some e) =>
                (Failure (Some 400%nat) (rethrow e),
                 mkState products' orders' (carts st))
            | (products', None) =>
                (Json 200 "Order cancelled successfully" (Some (Order.doc d)),
                 mkState products' orders' (carts st))
            end
        end
  end.

(** *** PUT /api/orders/:id/status (admin) *)

Definition truthy (s : option string) : bool :=
  match s with
  | None | Some EmptyString => false
  | Some _ => true
  end.

Definition updateOrderStatus (now : Date) (user : User.User) (id : ObjectId)
    (status : Status) (trackingNumber carrier note : option string)
    (st : State) : Response * State :=
  if negb (User.isAdmin user)
  then (Failure (Some 403%nat) (Error_ "Not authorized as admin"), st)
  else
    match Order.findById id (orders st) with
    | None => (Failure (Some 404%nat) (Error_ "Order not found"), st)
    | Some order =>
        let d1 := Order.assign_status status (Order.load order) in
        let d2 := if truthy trackingNumber
                  then Order.update (Order.set_trackingNumber trackingNumber) d1
                  else d1 in
        let d3 := if truthy carrier
                  then Order.update (Order.set_carrier carrier) d2
                  else d2 in
        let note' :=
          if truthy note then default "" note
          else "Status updated to " ++ Status_toString status ++ " by admin" in
        let d4 := Order.update
                    (Order.push_history
                       (History.mk status now note' (Some (User._id user)))) d3 in
        match Order.save now (orders st) d4 with
        | Throw e => (Failure None e, st)
        | Ok (orders', d) =>
            (Json 200 "Order status updated successfully" (Some (Order.doc d)),
             with_orders orders' st)
        end
    end.

(** *** Payment confirmation ([routes-paymentRoutes.js]) *)

(** What the gateway holds about a payment intent. *)
Record PaymentIntent := mkIntent {
  pi_id : string;
  pi_status : string;
  pi_currency : string;
  pi_amount : Number;
  pi_orderId : option string;      (* [metadata.orderId] *)
  pi_userEmail : option string     (* [metadata.userEmail] *)
}.

(** A rendering of [date.toISOString()]; the calendar fields are printed
    as they are, without the conversion to UTC. *)
Definition toISOString (d : Date) : string :=
  pretty (getFullYear d) ++ "-" ++ padStart0 2 (pretty (getMonth d + 1)%Z)
  ++ "-" ++ padStart0 2 (pretty (getDate d)) ++ "T+" ++ pretty (msOfDay d).

Definition stripe_result (now : Date) (intent : PaymentIntent)
    (status : string) (email : option string) : PaymentResult.PaymentResult :=
  {| PaymentResult.id := pi_id intent;
     PaymentResult.status := status;
     PaymentResult.update_time := Some (toISOString now);
     PaymentResult.email_address := email;
     PaymentResult.paymentMethod := Some "stripe";
     PaymentResult.transactionId := Some (pi_id intent);
     PaymentResult.currency := Some (pi_currency intent) |}.

(** POST /api/payments/stripe/confirm.  [retrieved] is the answer of
    [stripe.paymentIntents.retrieve], [None] when the call throws.  Every
    error raised inside the [try] block is replaced by the [catch] block. *)
Definition stripeConfirm (now : Date) (user : User.User)
    (paymentIntentId orderId : string) (retrieved : option PaymentIntent)
    (st : State) : Response * State :=
  match (Validator.check (Validator.notEmpty paymentIntentId)
           "Payment intent ID is required"
         ++ Validator.check (Validator.isMongoId orderId) "Invalid order ID")%list with
  | (_ :: _) as errs =>
      (Failure (Some 400%nat) (Error_ (Validator.join errs)), st)
  | [] =>
      let failed := (Failure (Some 500%nat) (Error_ "Failed to confirm payment"), st) in
      match retrieved with
      | None => failed
      | Some paymentIntent =>
          if String.eqb (pi_status paymentIntent) "succeeded" then
            match Order.findById orderId (orders st) with
            | None => failed
            | Some order =>
                if negb (String.eqb (Order.user order) (User._id user))
                then failed
                else
                  match Order.updatePaymentStatus now (orders st)
                          (stripe_result now paymentIntent (pi_status paymentIntent)
                                         (Some (User.email user)))
                          (Order.load order) with
                  | Throw _ => failed
                  | Ok (orders', d) =>
                      (Json 200 "Payment confirmed successfully"
                            (Some (Order.doc d)),
                       with_orders orders' st)
                  end
            end
          else failed
      end
  end.

(** POST /api/payments/webhook/stripe.  [event] is the verified event,
    [None] when the signature check throws; an error of the update is
    caught and logged. *)
Inductive StripeEvent : Type :=
| payment_intent_succeeded (paymentIntent : PaymentIntent)
| payment_intent_payment_failed (failedPayment : PaymentIntent)
| other_event (type : string).

Definition stripeWebhook (now : Date) (event : option StripeEvent) (st : State)
    : Response * State :=
  match event with
  | None => (Json 400 "Webhook Error" None, st)
  | Some (payment_intent_succeeded paymentIntent) =>
      let st' :=
        match pi_orderId paymentIntent with
        | None | Some EmptyString => st
        | Some orderId =>
            match Order.findById orderId (orders st) with
            | Some order =>
                if negb (Order.isPaid order) then
                  match Order.updatePaymentStatus now (orders st)
                          (stripe_result now paymentIntent "succeeded"
                                         (pi_userEmail paymentIntent))
                          (Order.load order) with
                  | Ok (orders', _) => with_orders orders' st
                  | Throw _ => st
                  end
                else st
            | None => st
            end
        end in
      (Json 200 "received" None, st')
  | Some _ => (Json 200 "received" None, st)
  end.

(* ================================================================== *)
(** * Properties *)
(* ================================================================== *)

(** ** Cart totals *)

Module CartFacts.
Import Cart.

(** The right-hand side of the claimed relation, on the stored fields. *)
Definition totals_sum (c : Cart) : Number :=
  PrimFloat.sub
    (PrimFloat.add (PrimFloat.add (subtotal c) (tax c)) (shipping c))
    (couponDiscount c).

(** [total === subtotal + tax + shipping - couponDiscount], the comparison
    of JavaScript numbers: false when a side is NaN. *)
Definition totals_equal (c : Cart) : Prop :=
  JS.strict_eq (total c) (totals_sum c) = true.

(** What the hook guarantees: the relation holds whenever its right-hand
    side is a number. *)
Definition totals_consistent (c : Cart) : Prop :=
  PrimFloat.is_nan (totals_sum c) = false ->
  total c = totals_sum c /\ totals_equal c.

(** The shipping rule on the stored subtotal. *)
Definition shipping_rule (c : Cart) : Prop :=
  shipping c = (if JS.ge (subtotal c) 100%float then 0%float else 10%float).

Lemma save_Ok now c c' :
  save now c = Ok c' -> validate c = true /\ c' = pre_save now c.
Proof.
  unfold save. destruct (validate c); [|discriminate].
  intros [= <-]. split; reflexivity.
Qed.

Lemma strict_eq_refl x : PrimFloat.is_nan x = false -> JS.strict_eq x x = true.
Proof.
  unfold PrimFloat.is_nan, JS.strict_eq. apply negb_false_iff.
Qed.

Lemma assign_Number_number old v :
  PrimFloat.is_nan v = false -> assign_Number old v = v.
Proof. unfold assign_Number. intros ->. reflexivity. Qed.

Lemma assign_Number_nan old v :
  PrimFloat.is_nan v = true -> assign_Number old v = old.
Proof. unfold assign_Number. intros ->. reflexivity. Qed.

Lemma pre_save_consistent now c :
  totals_consistent (pre_save now c) /\ shipping_rule (pre_save now c).
Proof.
  split; [|reflexivity].
  intros Hnum. unfold totals_equal.
  assert (total (pre_save now c) = totals_sum (pre_save now c)) as E
      by (exact (assign_Number_number _ _ Hnum)).
  split; [exact E|]. rewrite E. apply strict_eq_refl, Hnum.
Qed.

Lemma pre_save_items now c : items (pre_save now c) = items c.
Proof. reflexivity. Qed.

Lemma pre_save_coupon now c :
  couponCode (pre_save now c) = couponCode c
  /\ couponDiscount (pre_save now c) = couponDiscount c.
Proof. split; reflexivity. Qed.

(** Every cart method ends in [save]: a successful request returns what
    [save] returned for some document. *)
Lemma step_saved catalog now op c c' :
  step catalog now op c = Ok c' -> exists c0, save now c0 = Ok c'.
Proof.
  destruct op; cbn [step];
    unfold addItem, updateItemQuantity, removeItem, applyCoupon,
           removeCoupon, clearCart;
    repeat case_match; try discriminate; eauto.
Qed.

Lemma step_consistent catalog now op c c' :
  step catalog now op c = Ok c' -> totals_consistent c' /\ shipping_rule c'.
Proof.
  intros [c0 H]%step_saved. apply save_Ok in H as [_ ->].
  apply pre_save_consistent.
Qed.

Lemma stored_after_consistent catalog now op c :
  totals_consistent c /\ shipping_rule c ->
  totals_consistent (stored_after catalog now op c)
  /\ shipping_rule (stored_after catalog now op c).
Proof.
  intros Hc. unfold stored_after.
  destruct (step catalog now op c) as [c'|e] eqn:E; [|exact Hc].
  exact (step_consistent _ _ _ _ _ E).
Qed.

Lemma run_consistent reqs c :
  totals_consistent c /\ shipping_rule c ->
  totals_consistent (run reqs c) /\ shipping_rule (run reqs c).
Proof.
  revert c. induction reqs as [|[[catalog now] op] reqs IH]; intros c Hc.
  - exact Hc.
  - cbn [run]. apply IH, stored_after_consistent, Hc.
Qed.

(** C1 (as amended). A cart comes into being through [Cart.create]; after
    any sequence of cart requests (addItem, updateItemQuantity, removeItem,
    applyCoupon, and also removeCoupon and clearCart), each seeing its own
    catalog and clock and each leaving the stored cart untouched when it
    throws, the stored cart satisfies
    total = subtotal + tax + shipping - couponDiscount whenever that
    expression is a number (not NaN); its shipping is 0 when the stored
    subtotal is at least 100 and 10 otherwise. *)
Theorem C1_total_is_sum_of_parts :
  forall (now0 : Date) (userId : ObjectId)
         (reqs : list (gmap string Product.Product * Date * Op)),
  exists c0, create now0 userId = Ok c0
             /\ totals_consistent (run reqs c0)
             /\ shipping_rule (run reqs c0).
Proof.
  intros now0 userId reqs. eexists. split; [reflexivity|].
  apply run_consistent, pre_save_consistent.
Qed.

(** The catalog, the clock and the carts of the examples. *)
Definition sample_product : Product.Product :=
  Product.mk "65a000000000000000000001" "Desk lamp" ["lamp.png"]
             60%float 5%float true "active".

Definition sample_catalog : gmap string Product.Product :=
  {[ "65a000000000000000000001" := sample_product ]}.

Definition sample_day (ms : Z) : Date := mkDate 2025 0 15 ms.

(** The cart [Cart.create] stores for user u1. *)
Definition sample_empty : Cart :=
  pre_save (sample_day 1000)
    (mk "u1" [] None 0%float 0%float 0%float 0%float 0%float "USD"
        (sample_day 1000)).

(** A variant that adds nothing to the price. *)
Definition sample_variant : Variant.Variant :=
  Variant.mk "Shade" "White" 0%float.

(** The cart of the pricing scenario, one line of price 60 and quantity
    1, the line carrying a variant. *)
Definition sample_cart : Cart :=
  stored_after sample_catalog (sample_day 2000)
    (OpAddItem "65a000000000000000000001" 1%float (Some sample_variant))
    sample_empty.

(** A variant whose additional price is the number a JSON body writes
    [1e999]: it parses to Infinity. *)
Definition endless_variant : Variant.Variant :=
  Variant.mk "Shade" "White" PrimFloat.infinity.

(** C1, as the claim states it, fails: a line whose variant adds Infinity
    makes subtotal and tax infinite; SAVE10 then stores an infinite
    discount, the hook computes Infinity + Infinity + 0 - Infinity = NaN
    for the total, the assignment is dropped, and the stored total
    (Infinity) is not equal to the sum of the stored parts (NaN). *)
Lemma C1_counterexample :
  exists c0,
    create (sample_day 1000) "u1" = Ok c0
    /\ ~ totals_equal
           (run [ (sample_catalog, sample_day 2000,
                   OpAddItem "65a000000000000000000001" 1%float
                             (Some endless_variant));
                  (sample_catalog, sample_day 3000, OpApplyCoupon "SAVE10") ]
                c0).
Proof.
  eexists. split; [reflexivity|].
  unfold totals_equal. vm_compute. discriminate.
Qed.

(** ** The recompute rule *)

(** The subtotal of the recompute rule as the specification words it: the
    sum over the lines of (unit price + variant additional price) x
    quantity, a line without variant adding nothing to its unit price. *)
Definition rule_subtotal (l : list CartItem) : Number :=
  fold_left
    (fun acc i =>
       PrimFloat.add acc
         (PrimFloat.mul
            (PrimFloat.add (price i)
               (match variant i with
                | Some v => Variant.additionalPrice v
                | None => 0%float
                end))
            (quantity i)))
    l 0%float.

Lemma is_nan_Prim2SF x :
  PrimFloat.is_nan x = true <-> Prim2SF x = S754_nan.
Proof.
  unfold PrimFloat.is_nan. rewrite FloatAxioms.eqb_spec.
  unfold SFeqb. destruct (Prim2SF x) as [s|s| |s m e]; cbn.
  - split; discriminate.
  - destruct s; split; discriminate.
  - split; reflexivity.
  - rewrite Z.compare_refl, Pos.compare_cont_refl.
    destruct s; split; discriminate.
Qed.

Lemma is_nan_add_l x y :
  PrimFloat.is_nan x = true -> PrimFloat.is_nan (PrimFloat.add x y) = true.
Proof.
  rewrite !is_nan_Prim2SF, FloatAxioms.add_spec. intros ->. reflexivity.
Qed.

Lemma is_nan_add_r x y :
  PrimFloat.is_nan y = true -> PrimFloat.is_nan (PrimFloat.add x y) = true.
Proof.
  rewrite !is_nan_Prim2SF, FloatAxioms.add_spec. intros ->.
  destruct (Prim2SF x); reflexivity.
Qed.



Lemma is_nan_mul_l x y :
  PrimFloat.is_nan x = true -> PrimFloat.is_nan (PrimFloat.mul x y) = true.
Proof.
  rewrite !is_nan_Prim2SF, FloatAxioms.mul_spec. intros ->. reflexivity.
Qed.

Lemma line_total_without_variant line :
  variant line = None -> PrimFloat.is_nan (line_total line) = true.
Proof.
  intros H. unfold line_total, variant_additionalPrice. rewrite H.
  apply is_nan_mul_l. reflexivity.
Qed.

Lemma fold_subtotal_nan l acc :
  PrimFloat.is_nan acc = true ->
  PrimFloat.is_nan
    (fold_left (fun total item => PrimFloat.add total (line_total item)) l acc)
  = true.
Proof.
  revert acc. induction l as [|a l IH]; intros acc H; [exact H|].
  cbn [fold_left]. apply IH, is_nan_add_l, H.
Qed.

Lemma items_subtotal_without_variant l line :
  In line l -> variant line = None ->
  PrimFloat.is_nan (items_subtotal l) = true.
Proof.
  unfold items_subtotal. generalize 0%float as acc.
  induction l as [|a l IH]; intros acc Hin Hv; [destruct Hin|].
  cbn [fold_left]. destruct Hin as [-> | Hin].
  - apply fold_subtotal_nan, is_nan_add_r, line_total_without_variant, Hv.
  - apply IH; assumption.
Qed.

Lemma validate_set_coupon code d c :
  validate c = true -> PrimFloat.leb 0%float d = true ->
  validate (set_coupon code d c) = true.
Proof.
  unfold validate, JS.ge. cbn [items couponDiscount subtotal tax shipping total set_coupon].
  intros H Hd. rewrite !andb_true_iff in *. tauto.
Qed.

(** C8. The recomputation does not price a line that has no variant.
    (1) Whenever some line of the cart has no variant, the sum the hook
    computes is NaN and the save leaves the stored subtotal as it was.
    (2) The scenario of the claim: one lamp of price 60, quantity 1, added
    without a variant to a new cart.  The line is stored, the rule's
    subtotal for it is 60, yet the stored subtotal is 0, tax 0, shipping
    10 and total 10, and SAVE10 is refused for a subtotal below 50.
    (3) When the one line carries a variant whose additional price is 0,
    the figures are those of the claim: SAVE10 gives subtotal 60, discount
    6, tax 4.8, shipping 10 and total 68.8. *)
Theorem C8_line_without_variant_is_not_priced :
  (forall now c line,
      In line (items c) -> variant line = None ->
      PrimFloat.is_nan (items_subtotal (items c)) = true
      /\ subtotal (pre_save now c) = subtotal c)
  /\ (exists c1 line,
         addItem sample_catalog (sample_day 2000)
                 "65a000000000000000000001" 1%float None sample_empty = Ok c1
         /\ items c1 = [line]
         /\ price line = 60%float /\ quantity line = 1%float
         /\ rule_subtotal (items c1) = 60%float
         /\ subtotal c1 = 0%float /\ tax c1 = 0%float
         /\ shipping c1 = 10%float /\ total c1 = 10%float
         /\ applyCoupon (sample_day 3000) "SAVE10" c1
            = Throw (MinimumAmountError 50%float))
  /\ (forall now c line v,
         items c = [line] ->
         price line = 60%float -> quantity line = 1%float ->
         variant line = Some v -> Variant.additionalPrice v = 0%float ->
         subtotal c = 60%float -> validate c = true ->
         exists c', applyCoupon now "SAVE10" c = Ok c'
                    /\ subtotal c' = 60%float
                    /\ couponCode c' = Some "SAVE10"
                    /\ couponDiscount c' = 6%float
                    /\ tax c' = 4.8%float
                    /\ shipping c' = 10%float
                    /\ total c' = 68.8%float).
Proof.
  split; [|split].
  - intros now c line Hin Hv.
    pose proof (items_subtotal_without_variant _ _ Hin Hv) as Hnan.
    split; [exact Hnan|]. exact (assign_Number_nan _ _ Hnan).
  - eexists. eexists. split; [vm_compute; reflexivity|].
    split; [reflexivity|]. repeat split; vm_compute; reflexivity.
  - intros now c line v Hitems Hp Hq Hv Hadd Hsub Hval.
    unfold applyCoupon. change (toUpperCase "SAVE10") with "SAVE10".
    change (coupons "SAVE10") with (Some (mkCoupon percentage 10%float 50%float)).
    cbn [minAmount type value]. rewrite Hsub.
    change (JS.lt 60%float 50%float) with false. cbv iota.
    change (PrimFloat.div (PrimFloat.mul 60%float 10%float) 100%float) with 6%float.
    unfold save. rewrite validate_set_coupon by (assumption || reflexivity).
    eexists. split; [reflexivity|].
    unfold pre_save. cbn [subtotal couponCode couponDiscount tax shipping total
                          items set_coupon].
    rewrite Hitems. unfold items_subtotal, line_total, variant_additionalPrice.
    cbn [fold_left]. rewrite Hv. cbn [option_map]. rewrite Hp, Hq, Hadd.
    repeat split; reflexivity.
Qed.

Lemma C8_line_without_variant_is_not_priced_witness :
  (exists c1,
      addItem sample_catalog (sample_day 2000)
              "65a000000000000000000001" 1%float None sample_empty = Ok c1
      /\ subtotal (pre_save (sample_day 2500) c1) = subtotal c1)
  /\ exists c', applyCoupon (sample_day 3000) "SAVE10" sample_cart = Ok c'
                /\ total c' = 68.8%float.
Proof.
  split.
  - eexists. split; [vm_compute; reflexivity|].
    eapply (proj1 C8_line_without_variant_is_not_priced (sample_day 2500)).
    + left. reflexivity.
    + reflexivity.
  - destruct (proj2 (proj2 C8_line_without_variant_is_not_priced)
                (sample_day 3000) sample_cart
                (mkItem "65a000000000000000000001" "Desk lamp" "lamp.png"
                        60%float 1%float (Some sample_variant) (sample_day 2000))
                sample_variant)
      as [c' [H1 [_ [_ [_ [_ [_ H2]]]]]]];
      try (vm_compute; reflexivity).
    exists c'. split; assumption.
Defined.

(** *** The coupon fields under line mutations *)

Definition is_line_mutation (op : Op) : bool :=
  match op with
  | OpAddItem _ _ _ | OpUpdateItemQuantity _ _ _ | OpRemoveItem _ _ => true
  | _ => false
  end.

Lemma findIndex_Some {A} (p : A -> bool) l i :
  findIndex p l = Some i -> exists x, l !! i = Some x /\ p x = true.
Proof.
  revert i. induction l as [|a l IH]; intros i; cbn [findIndex]; [discriminate|].
  destruct (p a) eqn:Ea.
  - intros [= <-]. exists a. split; [reflexivity|exact Ea].
  - destruct (findIndex p l) as [j|]; [|discriminate].
    intros [= <-]. destruct (IH j eq_refl) as [x [H1 H2]].
    exists x. split; assumption.
Qed.

Lemma findIndex_None {A} (p : A -> bool) l x :
  findIndex p l = None -> In x l -> p x = false.
Proof.
  induction l as [|a l IH]; cbn [findIndex In]; [tauto|].
  destruct (p a) eqn:Ea; [discriminate|].
  destruct (findIndex p l); [discriminate|].
  intros _ [<-|Hin]; auto.
Qed.

(** C9. addItem, updateItemQuantity and removeItem return a cart with the
    couponCode and couponDiscount they were given; clearCart and
    removeCoupon return a cart with no code and discount 0.  In particular
    a cart holding one line and the SAVE10 discount 6 computed on subtotal
    60 keeps that code and discount when the line is removed: the stored
    subtotal is then 0, below the coupon's minimum of 50, and the total is
    0 + 0 + 10 - 6 = 4. *)
Theorem C9_line_mutations_keep_coupon :
  (forall catalog now op c c',
      is_line_mutation op = true ->
      step catalog now op c = Ok c' ->
      couponCode c' = couponCode c /\ couponDiscount c' = couponDiscount c)
  /\ (forall now c c',
         clearCart now c = Ok c' \/ removeCoupon now c = Ok c' ->
         couponCode c' = None /\ couponDiscount c' = 0%float)
  /\ (forall now c line productId variant',
         items c = [line] ->
         same_line productId variant' line = true ->
         couponCode c = Some "SAVE10" -> couponDiscount c = 6%float ->
         validate c = true ->
         exists c', removeItem now productId variant' c = Ok c'
                    /\ items c' = []
                    /\ subtotal c' = 0%float
                    /\ JS.lt (subtotal c') 50%float = true
                    /\ couponCode c' = Some "SAVE10"
                    /\ couponDiscount c' = 6%float
                    /\ total c' = 4%float).
Proof.
  split; [|split].
  - intros catalog now op c c' Hop H.
    destruct op; try discriminate Hop; cbn [step] in H;
      unfold addItem, updateItemQuantity, removeItem in H;
      repeat case_match; try discriminate;
      apply save_Ok in H as [_ ->]; split; reflexivity.
  - intros now c c' [H|H]; apply save_Ok in H as [_ ->]; split; reflexivity.
  - intros now c line productId variant' Hitems Hline Hcode Hdisc Hval.
    unfold removeItem. rewrite Hitems. cbn [findIndex]. rewrite Hline.
    cbn [delete list_delete]. unfold save.
    assert (validate (set_items [] c) = true) as ->.
    { revert Hval. unfold validate.
      cbn [items couponDiscount subtotal tax shipping total set_items forallb].
      rewrite !andb_true_iff. tauto. }
    eexists. split; [reflexivity|].
    unfold pre_save.
    cbn [items couponCode couponDiscount subtotal total set_items].
    rewrite Hcode, Hdisc. repeat split; reflexivity.
Qed.

Lemma C9_line_mutations_keep_coupon_witness :
  exists c1 c2,
    applyCoupon (sample_day 3000) "save10" sample_cart = Ok c1
    /\ removeItem (sample_day 4000) "65a000000000000000000001"
                  (Some sample_variant) c1 = Ok c2
    /\ couponCode c2 = couponCode c1
    /\ couponDiscount c2 = couponDiscount c1
    /\ total c2 = 4%float.
Proof.
  eexists. eexists. split; [vm_compute; reflexivity|].
  split; [vm_compute; reflexivity|].
  pose proof (proj1 C9_line_mutations_keep_coupon sample_catalog
                (sample_day 4000)
                (OpRemoveItem "65a000000000000000000001" (Some sample_variant))) as H.
  cbn [step] in H.
  split; [|split].
  - eapply H; [reflexivity|vm_compute; reflexivity].
  - eapply H; [reflexivity|vm_compute; reflexivity].
  - vm_compute. reflexivity.
Defined.

(** *** Line quantities after addItem *)


Lemma validate_items c line :
  validate c = true -> In line (items c) ->
  PrimFloat.leb 1%float (quantity line) = true
  /\ PrimFloat.leb (quantity line) 10%float = true.
Proof.
  unfold validate. rewrite !andb_true_iff. intros [[[[[H _] _] _] _] _] Hin.
  rewrite forallb_forall in H. apply H in Hin.
  unfold validate_item, JS.ge, JS.le in Hin.
  rewrite !andb_true_iff in Hin. tauto.
Qed.



End CartFacts.

(** ** Orders *)

Module OrderFacts.
Import Order.

Lemma findById_Some id l o :
  findById id l = Some o -> _id o = id /\ In o l.
Proof.
  unfold findById. intros H. apply find_some in H as [Hin Heq].
  apply String.eqb_eq in Heq. split; assumption.
Qed.

Lemma findById_replace id l o0 o :
  findById id l = Some o0 -> _id o = id -> findById id (replace o l) = Some o.
Proof.
  unfold findById, replace. intros H <-.
  induction l as [|x l IH]; cbn [find map] in *; [discriminate|].
  destruct (String.eqb (_id x) (_id o)) eqn:Ex.
  - rewrite String.eqb_refl. reflexivity.
  - rewrite Ex. apply IH, H.
Qed.

(** What [save] does to a loaded document that passes validation: only
    the status hook can act. *)
Lemma save_loaded now orders d :
  isNew d = false -> validate d = true ->
  save now orders d
  = Ok (replace (doc (hook_statusHistory now d)) orders,
        load (doc (hook_statusHistory now d))).
Proof.
  destruct d as [o n m a]. cbn [isNew]. intros -> Hv.
  unfold save. rewrite Hv.
  unfold hook_orderNumber, hook_created, hook_statusHistory.
  cbn [isNew status_modified negb andb doc update].
  destruct m; reflexivity.
Qed.

Lemma save_invalid now orders d :
  validate d = false -> save now orders d = Throw ValidationError.
Proof. unfold save. intros ->. reflexivity. Qed.

(** A loaded document whose [paymentResult] was not assigned passes. *)
Lemma validate_loaded d :
  isNew d = false -> paymentResult_assigned d = false -> validate d = true.
Proof. unfold validate. intros -> ->. reflexivity. Qed.

(** Fields that neither hook writes. *)
Lemma hook_statusHistory_frame now d :
  let o' := doc (hook_statusHistory now d) in
  _id o' = _id (doc d) /\ user o' = user (doc d)
  /\ status o' = status (doc d) /\ isPaid o' = isPaid (doc d)
  /\ paidAt o' = paidAt (doc d) /\ paymentResult o' = paymentResult (doc d)
  /\ orderItems o' = orderItems (doc d) /\ orderNumber o' = orderNumber (doc d).
Proof.
  destruct d as [o n m a]. unfold hook_statusHistory, stamp_dates, update, push_history.
  cbn [isNew status_modified doc].
  destruct (m && negb n); cbn [doc]; [|repeat split].
  cbn [status set_statusHistory].
  destruct (status o) eqn:Es; repeat case_match; cbn; rewrite ?Es; repeat split.
Qed.

(** The status after [updatePaymentStatus]. *)
Definition paid_status (s : Status) : Status :=
  match s with
  | pending => processing
  | _ => s
  end.

(** The document [updatePaymentStatus] hands to [save]. *)
Definition paying (now : Date) (pr : PaymentResult.PaymentResult)
    (d : Document) : Document :=
  let d1 := assign_paymentResult pr
              (update (fun o => set_paidAt (Some now) (set_isPaid true o)) d) in
  match status (doc d1) with
  | pending => assign_status processing d1
  | _ => d1
  end.

Lemma paying_fields now pr d :
  isNew (paying now pr d) = isNew d
  /\ paymentResult_assigned (paying now pr d) = true
  /\ _id (doc (paying now pr d)) = _id (doc d)
  /\ isPaid (doc (paying now pr d)) = true
  /\ paidAt (doc (paying now pr d)) = Some now
  /\ paymentResult (doc (paying now pr d)) = Some (PaymentResult.cast pr)
  /\ status (doc (paying now pr d)) = paid_status (status (doc d))
  /\ statusHistory (doc (paying now pr d)) = statusHistory (doc d)
  /\ status_modified (paying now pr d)
     = status_modified d || Status_eqb (status (doc d)) pending.
Proof.
  destruct d as [o n m a]. destruct o.
  match goal with s : Status |- _ => destruct s end;
    destruct m; vm_compute; repeat split.
Qed.

Lemma validate_paying now pr d :
  isNew d = false ->
  validate (paying now pr d) = validate_paymentResult pr.
Proof.
  intros Hn. unfold validate.
  destruct (paying_fields now pr d) as (E1 & E2 & _ & _ & _ & E3 & _).
  rewrite E1, Hn, E2, E3. reflexivity.
Qed.

(** [updatePaymentStatus] on a loaded document: rejected when the payment
    result names no method of the enum, stored otherwise. *)
Lemma updatePaymentStatus_loaded now orders pr d :
  isNew d = false ->
  updatePaymentStatus now orders pr d
  = if validate_paymentResult pr
    then Ok (replace (doc (hook_statusHistory now (paying now pr d))) orders,
             load (doc (hook_statusHistory now (paying now pr d))))
    else Throw ValidationError.
Proof.
  intros Hn. change (updatePaymentStatus now orders pr d)
    with (save now orders (paying now pr d)).
  pose proof (validate_paying now pr d Hn) as Hv.
  destruct (validate_paymentResult pr).
  - apply save_loaded; [|exact Hv].
    rewrite (proj1 (paying_fields now pr d)). exact Hn.
  - apply save_invalid, Hv.
Qed.


(** A store for the examples: one product, and one stored pending order
    of alice with the figures of the pricing scenario (one line of price
    60, quantity 1, coupon SAVE10). *)
Definition lamp_id : ObjectId := "65a000000000000000000001".

Definition sample_address : Address.Address :=
  Address.mk "Ada" "1 Main Street" "Paris" "75001" "FR" "0100000000".

Definition sample_body : OrderBody :=
  mkOrderBody [mkReqItem lamp_id 1%float None] sample_address None
              "stripe" (Some "SAVE10") None.

Definition alice : User.User := User.mk "u1" "alice@example.com" false.
Definition root : User.User := User.mk "u0" "root@example.com" true.

Definition sample_store : State :=
  mkState CartFacts.sample_catalog [] ∅.

Definition order1_id : ObjectId := "65b000000000000000000001".

Definition sample_order : Order :=
  set_statusHistory
    [History.mk pending (CartFacts.sample_day 1000) "Order created" None]
    (set_orderNumber "ORD2501150001"
       (priced_order (CartFacts.sample_day 1000) order1_id alice sample_body
                     60%float
                     [mkItem lamp_id "Desk lamp" "lamp.png" 60%float 1%float
                             None])).

Definition one_order : State :=
  mkState CartFacts.sample_catalog [sample_order] ∅.

Definition sample_payment : PaymentResult.PaymentResult :=
  PaymentResult.mk "pay_1" "COMPLETED" None None (Some "paypal") None None.



Definition after_cancel : State :=
  snd (cancelOrderRoute (CartFacts.sample_day 2000) alice order1_id None
                        one_order).


(** *** Cancelling a shipped or delivered order *)

(** C5. For an order whose status is shipped or delivered, [cancelOrder]
    throws "Cannot cancel shipped or delivered orders"; the cancel route
    answers with an error and returns the store it was given, so the
    order's status and statusHistory and every product's stock are as
    before; called by the owner, the error is the 400 carrying that
    message. *)
Theorem C5_cancel_after_shipping_fails :
  forall now user id reason st order,
    findById id (orders st) = Some order ->
    status order = shipped \/ status order = delivered ->
    (forall orders' reason' cancelledBy,
        cancelOrder now orders' reason' cancelledBy (load order)
        = Throw (Error_ "Cannot cancel shipped or delivered orders"))
    /\ (exists code e,
           cancelOrderRoute now user id reason st = (Failure (Some code) e, st))
    /\ (Order.user order = User._id user ->
        cancelOrderRoute now user id reason st
        = (Failure (Some 400%nat)
                   (Error_ "Cannot cancel shipped or delivered orders"), st)).
Proof.
  intros now user id reason st order Hfind Hst.
  assert (forall orders' reason' cancelledBy,
             cancelOrder now orders' reason' cancelledBy (load order)
             = Throw (Error_ "Cannot cancel shipped or delivered orders")) as Hthrow.
  { intros. unfold cancelOrder. cbn [load doc].
    destruct Hst as [-> | ->]; reflexivity. }
  split; [exact Hthrow|].
  unfold cancelOrderRoute. rewrite Hfind.
  destruct (String.eqb (Order.user order) (User._id user)) eqn:Eu; cbn [negb].
  - rewrite Hthrow. split; [eauto|]. intros _. reflexivity.
  - split; [eauto|]. intros Heq. rewrite Heq, String.eqb_refl in Eu. discriminate.
Qed.

Definition after_shipping : State :=
  snd (updateOrderStatus (CartFacts.sample_day 2000) root order1_id shipped
                         (Some "TRK1") (Some "UPS") None one_order).

Lemma C5_cancel_after_shipping_fails_witness :
  cancelOrderRoute (CartFacts.sample_day 3000) alice order1_id
                   (Some "changed my mind") after_shipping
  = (Failure (Some 400%nat)
             (Error_ "Cannot cancel shipped or delivered orders"),
     after_shipping).
Proof.
  edestruct (C5_cancel_after_shipping_fails (CartFacts.sample_day 3000)
               alice order1_id (Some "changed my mind") after_shipping)
    as (_ & _ & H).
  - vm_compute. reflexivity.
  - left. reflexivity.
  - apply H. reflexivity.
Defined.

(** *** The money fields of a new order *)






(** The document the handler builds has no order number, and [save]
    refuses it before any hook runs. *)
Lemma save_priced_order now newId user body itemsPrice processedItems l :
  save now l (new (priced_order now newId user body itemsPrice processedItems))
  = Throw ValidationError.
Proof. reflexivity. Qed.

Lemma createOrder_rejected now newId user body st ip pi :
  createOrder_errors body = [] ->
  process_items (products st) (b_orderItems body) 0%float [] = inr (ip, pi) ->
  createOrder now newId user body st = (Failure None ValidationError, st).
Proof.
  intros He Hp. unfold createOrder. rewrite He.
  destruct (b_orderItems body) as [|i0 rest] eqn:Eitems.
  - unfold createOrder_errors in He. rewrite Eitems in He. discriminate He.
  - rewrite Hp, save_priced_order. reflexivity.
Qed.

Lemma createOrder_fails now newId user body st :
  exists code e, createOrder now newId user body st = (Failure code e, st).
Proof.
  destruct (createOrder_errors body) as [|m ms] eqn:He.
  - destruct (process_items (products st) (b_orderItems body) 0%float [])
      as [[code e]|[ip pi]] eqn:Ep.
    + unfold createOrder. rewrite He.
      destruct (b_orderItems body) as [|i0 rest]; [eauto|].
      rewrite Ep. eauto.
    + rewrite (createOrder_rejected _ _ _ _ _ _ _ He Ep). eauto.
  - unfold createOrder. rewrite He. eauto.
Qed.




(** The pricing scenario at checkout: the document has itemsPrice 60, tax
    4.8, shipping 10, discount 6 and total 68.8, and the request fails. *)
Lemma checkout_scenario :
  createOrder (CartFacts.sample_day 1000) order1_id alice sample_body
              sample_store
  = (Failure None ValidationError, sample_store)
  /\ (let o := priced_order (CartFacts.sample_day 1000) order1_id alice
                            sample_body 60%float
                            [mkItem lamp_id "Desk lamp" "lamp.png" 60%float
                                    1%float None] in
      itemsPrice o = 60%float /\ taxPrice o = 4.8%float
      /\ shippingPrice o = 10%float /\ discountAmount o = 6%float
      /\ totalPrice o = 68.8%float /\ orderNumber o = "").
Proof. split; [vm_compute; reflexivity|]. vm_compute. repeat split. Qed.

(** *** Entries appended to the status history *)

Definition statusHistory_of (id : ObjectId) (st : State) : list HistoryEntry :=
  match findById id (orders st) with
  | Some o => statusHistory o
  | None => []
  end.

(** C3 (the code departs from it). The admin status route pushes its own
    entry and then [save] runs the status hook, which pushes a second one:
    moving a stored pending order to shipped leaves three entries, the
    creation entry and two for the one transition.  [cancelOrder] does the
    same. *)
Theorem C3_one_transition_two_entries :
  statusHistory_of order1_id after_shipping
  = [ History.mk pending (CartFacts.sample_day 1000) "Order created" None;
      History.mk shipped (CartFacts.sample_day 2000)
                 "Status updated to shipped by admin" (Some "u0");
      History.mk shipped (CartFacts.sample_day 2000)
                 "Status updated to shipped" None ]
  /\ statusHistory_of order1_id after_cancel
     = [ History.mk pending (CartFacts.sample_day 1000) "Order created" None;
         History.mk cancelled (CartFacts.sample_day 2000)
                    "Order cancelled: Cancelled by user" (Some "u1");
         History.mk cancelled (CartFacts.sample_day 2000)
                    "Status updated to cancelled" None ].
Proof. split; vm_compute; reflexivity. Qed.

(** *** Confirming a payment twice *)

Definition sample_intent : PaymentIntent :=
  mkIntent "pi_1" "succeeded" "usd" 6880%float (Some order1_id)
           (Some "alice@example.com").

Definition after_webhook : State :=
  snd (stripeWebhook (CartFacts.sample_day 2000)
                     (Some (payment_intent_succeeded sample_intent))
                     one_order).

Definition after_confirm : State :=
  snd (stripeConfirm (CartFacts.sample_day 3000) alice "pi_1" order1_id
                     (Some sample_intent) after_webhook).

(** C4 (the code departs from it). A stored pending order is marked paid
    by the Stripe webhook; the confirm endpoint, called
    afterwards for the same payment intent, has no isPaid guard and stores
    a new paidAt and a new paymentResult. *)
Theorem C4_second_confirmation_overwrites :
  exists o1 o2,
    findById order1_id (orders after_webhook) = Some o1
    /\ findById order1_id (orders after_confirm) = Some o2
    /\ isPaid o1 = true /\ isPaid o2 = true
    /\ paidAt o1 = Some (CartFacts.sample_day 2000)
    /\ paidAt o2 = Some (CartFacts.sample_day 3000)
    /\ paymentResult o1 <> paymentResult o2
    /\ statusHistory o2 = statusHistory o1.
Proof.
  eexists. eexists.
  split; [vm_compute; reflexivity|].
  split; [vm_compute; reflexivity|].
  repeat split; try (vm_compute; reflexivity).
  vm_compute. discriminate.
Qed.

End OrderFacts.

(** ** Order numbers *)

Module OrderNumberFacts.
Import Order.

(** The decimal digit of the units of [n]. *)
Definition digit (n : Z) : ascii :=
  match (n mod 10)%Z with
  | 0%Z => "0" | 1%Z => "1" | 2%Z => "2" | 3%Z => "3" | 4%Z => "4"
  | 5%Z => "5" | 6%Z => "6" | 7%Z => "7" | 8%Z => "8" | _ => "9"
  end%char.

(** The [w] lowest decimal digits of [n], most significant first. *)
Fixpoint fixed_width (w : nat) (n : Z) : string :=
  match w with
  | O => ""
  | S w' => fixed_width w' (n / 10) ++ String (digit n) ""
  end.

(** The number the claim describes: ORD, two digits each for year, month
    and day, four for the sequence. *)
Definition expected_orderNumber (date : Date) (sequence : Z) : string :=
  "ORD" ++ fixed_width 2 (getFullYear date mod 100)
        ++ fixed_width 2 (getMonth date + 1)
        ++ fixed_width 2 (getDate date)
        ++ fixed_width 4 sequence.

(** How many stored orders were created on the calendar day of [date]. *)
Definition count_today (date : Date) (orders : list Order) : Z :=
  Z.of_nat (length (List.filter (created_today date) orders)).

(** A date the clock can give: a year of the epoch, a month index, a day
    of the month, a time of day. *)
Definition wf_date (d : Date) : Prop :=
  (1970 <= getFullYear d)%Z
  /\ (0 <= getMonth d <= 11)%Z
  /\ (1 <= getDate d <= 31)%Z
  /\ (0 <= msOfDay d)%Z.

(** A collection all of whose orders were numbered by the hook, one after
    the other at increasing instants; nothing is said of an order that
    came after 9999 others of its day. *)
Inductive Sequential : list Order -> Prop :=
| Sequential_nil : Sequential []
| Sequential_snoc (l : list Order) (o : Order) :
    Sequential l ->
    wf_date (createdAt o) ->
    (forall o', In o' l -> Date_ltb (createdAt o') (createdAt o) = true) ->
    ((count_today (createdAt o) l < 9999)%Z ->
     orderNumber o
     = expected_orderNumber (createdAt o) (count_today (createdAt o) l + 1)) ->
    Sequential (l ++ [o])%list.

(** *** Strings *)

Lemma append_cons c (a b : string) : String c a ++ b = String c (a ++ b).
Proof. reflexivity. Qed.

Lemma append_nil (b : string) : "" ++ b = b.
Proof. reflexivity. Qed.

Lemma string_length_app (a b : string) :
  String.length (a ++ b) = (String.length a + String.length b)%nat.
Proof.
  induction a as [|c a IH]; [reflexivity|].
  rewrite append_cons. cbn [String.length Nat.add]. rewrite IH. reflexivity.
Qed.

Lemma length_fixed_width w n : String.length (fixed_width w n) = w.
Proof.
  revert n. induction w as [|w IH]; intros n; cbn [fixed_width]; [reflexivity|].
  rewrite string_length_app, IH. cbn. lia.
Qed.

Lemma substring_skip p q n :
  substring (String.length p) n (p ++ q) = substring 0 n q.
Proof.
  induction p as [|c p IH]; [reflexivity|].
  rewrite append_cons. cbn [String.length substring]. exact IH.
Qed.

Lemma substring_all q : substring 0 (String.length q) q = q.
Proof.
  induction q as [|c q IH]; cbn [String.length substring]; [reflexivity|].
  rewrite IH. reflexivity.
Qed.

Lemma substr_last_app p q :
  substr_last (String.length q) (p ++ q) = q.
Proof.
  unfold substr_last. rewrite string_length_app.
  replace (String.length p + String.length q - String.length q)%nat
    with (String.length p) by lia.
  rewrite substring_skip. apply substring_all.
Qed.

Lemma string_app_assoc (a b c : string) : (a ++ b) ++ c = a ++ (b ++ c).
Proof.
  induction a as [|x a IH]; [reflexivity|].
  rewrite !append_cons, IH. reflexivity.
Qed.

(** *** The last two digits of the year *)

Lemma pretty_N_go_app x s : pretty_N_go x s = pretty_N_go x "" ++ s.
Proof.
  revert s. induction (N.lt_wf_0 x) as [x _ IH]; intros s.
  destruct (N.eq_dec x 0%N) as [->|Hx].
  - rewrite !pretty_N_go_0. reflexivity.
  - rewrite (pretty_N_go_step x s), (pretty_N_go_step x "") by lia.
    assert (x `div` 10 < x)%N as Hlt by (apply N.div_lt; lia).
    rewrite (IH _ Hlt (String _ s)), (IH _ Hlt (String _ "")).
    rewrite string_app_assoc. reflexivity.
Qed.

Lemma pretty_N_char_digit x :
  (x < 10)%N -> pretty_N_char x = digit (Z.of_N x).
Proof.
  intros Hx.
  assert (x = 0 \/ x = 1 \/ x = 2 \/ x = 3 \/ x = 4 \/ x = 5 \/ x = 6
          \/ x = 7 \/ x = 8 \/ x = 9)%N as H by lia.
  repeat (destruct H as [->|H]; [reflexivity|]). subst x. reflexivity.
Qed.

Lemma digit_mod a b : (a mod 10 = b mod 10)%Z -> digit a = digit b.
Proof. unfold digit. intros ->. reflexivity. Qed.

Lemma pretty_two_digits x :
  (10 <= x)%N ->
  pretty_N_go x ""
  = pretty_N_go (x `div` 100)%N ""
    ++ String (pretty_N_char ((x `div` 10) `mod` 10)%N)
         (String (pretty_N_char (x `mod` 10)%N) "").
Proof.
  intros Hx.
  assert (0 < x `div` 10)%N by (apply N.div_str_pos; lia).
  rewrite (pretty_N_go_step x) by lia.
  rewrite (pretty_N_go_step (x `div` 10)%N) by assumption.
  rewrite pretty_N_go_app. rewrite N.Div0.div_div. reflexivity.
Qed.

Lemma year_two_digits y :
  (10 <= y)%Z -> substr_last 2 (pretty y) = fixed_width 2 (y mod 100).
Proof.
  intros Hy. destruct y as [|p|p]; try lia.
  change (pretty (Z.pos p)) with (pretty (N.pos p)).
  unfold pretty, pretty_N. destruct (decide (N.pos p = 0%N)); [discriminate|].
  rewrite pretty_two_digits by lia.
  change 2%nat with (String.length
                       (String (pretty_N_char ((N.pos p `div` 10) `mod` 10)%N)
                          (String (pretty_N_char (N.pos p `mod` 10)%N) ""))) at 1.
  rewrite substr_last_app.
  change (fixed_width 2 (Z.pos p mod 100))
    with (String (digit (Z.pos p mod 100 / 10))
            (String (digit (Z.pos p mod 100)) "")).
  rewrite !pretty_N_char_digit by (apply N.mod_lt; discriminate).
  f_equal; [|f_equal]; apply digit_mod;
    rewrite ?N2Z.inj_mod, ?N2Z.inj_div; change (Z.of_N (N.pos p)) with (Z.pos p);
    change (Z.of_N 10) with 10%Z; Z.div_mod_to_equations; lia.
Qed.

(** *** Zero padding *)

Lemma append_nil_r (a : string) : a ++ "" = a.
Proof.
  induction a as [|c a IH]; [reflexivity|]. rewrite append_cons, IH. reflexivity.
Qed.

Lemma zeros_snoc n : zeros (S n) = zeros n ++ "0".
Proof.
  induction n as [|n IH]; [reflexivity|].
  change (String "0" (zeros (S n)) = String "0" (zeros n ++ "0")).
  f_equal. exact IH.
Qed.

Lemma fixed_width_zero w : fixed_width w 0 = zeros w.
Proof.
  induction w as [|w IH]; [reflexivity|].
  cbn [fixed_width]. change (0 / 10)%Z with 0%Z. rewrite IH, zeros_snoc.
  reflexivity.
Qed.

Lemma pretty_N_go_snoc x :
  (0 < x)%N ->
  pretty_N_go x ""
  = pretty_N_go (x `div` 10)%N "" ++ String (digit (Z.of_N x)) "".
Proof.
  intros Hx. rewrite pretty_N_go_step by assumption. rewrite pretty_N_go_app.
  rewrite pretty_N_char_digit by (apply N.mod_lt; discriminate).
  do 2 f_equal. apply digit_mod. rewrite N2Z.inj_mod. change (Z.of_N 10) with 10%Z.
  rewrite Z.mod_mod by discriminate. reflexivity.
Qed.

Lemma pad_pretty_N_go w :
  forall x, (Z.of_N x < 10 ^ Z.of_nat w)%Z ->
  (String.length (pretty_N_go x "") <= w)%nat
  /\ zeros (w - String.length (pretty_N_go x "")) ++ pretty_N_go x ""
     = fixed_width w (Z.of_N x).
Proof.
  induction w as [|w IH]; intros x Hx.
  - change (10 ^ Z.of_nat 0)%Z with 1%Z in Hx.
    assert (x = 0%N) as -> by lia. split; reflexivity.
  - destruct (N.eq_dec x 0%N) as [->|Hpos].
    + rewrite pretty_N_go_0. split; [cbn; lia|].
      rewrite append_nil_r. cbn [String.length]. rewrite Nat.sub_0_r.
      symmetry. apply fixed_width_zero.
    + rewrite Nat2Z.inj_succ, Z.pow_succ_r in Hx by lia.
      destruct (IH (x `div` 10)%N) as [Hlen Hpad].
      { rewrite N2Z.inj_div. change (Z.of_N 10) with 10%Z.
        apply Z.div_lt_upper_bound; lia. }
      rewrite pretty_N_go_snoc by lia. rewrite string_length_app.
      cbn [String.length]. split; [lia|].
      replace (S w - (String.length (pretty_N_go (x `div` 10) "") + 1))%nat
        with (w - String.length (pretty_N_go (x `div` 10) ""))%nat by lia.
      rewrite <- string_app_assoc, Hpad. cbn [fixed_width].
      rewrite N2Z.inj_div. reflexivity.
Qed.

(** [padStart] of the decimal text of [n] is the [w] digits of [n]. *)
Lemma padStart_fixed_width w n :
  (1 <= w)%nat -> (0 <= n < 10 ^ Z.of_nat w)%Z ->
  padStart0 w (pretty n) = fixed_width w n.
Proof.
  intros Hw Hn. unfold padStart0. destruct n as [|p|p]; [| |lia].
  - change (pretty 0%Z) with "0". cbn [String.length].
    destruct w as [|w]; [lia|]. rewrite fixed_width_zero, zeros_snoc.
    replace (S w - 1)%nat with w by lia. reflexivity.
  - change (pretty (Z.pos p)) with (pretty (N.pos p)).
    unfold pretty, pretty_N. destruct (decide (N.pos p = 0%N)); [discriminate|].
    apply (pad_pretty_N_go w (N.pos p)). exact (proj2 Hn).
Qed.

Lemma padStart_two k :
  (0 <= k < 100)%Z -> padStart0 2 (pretty k) = fixed_width 2 k.
Proof. intros Hk. apply padStart_fixed_width; [lia|exact Hk]. Qed.

Lemma padStart_four k :
  (0 <= k < 10000)%Z -> padStart0 4 (pretty k) = fixed_width 4 k.
Proof. intros Hk. apply padStart_fixed_width; [lia|exact Hk]. Qed.

(** *** Reading the sequence back *)

Lemma digit_value_digit n :
  ParseInt.digit_value 10 (digit n) = Some (n mod 10)%Z.
Proof.
  unfold digit.
  pose proof (Z.mod_pos_bound n 10 eq_refl) as H.
  assert (n mod 10 = 0 \/ n mod 10 = 1 \/ n mod 10 = 2 \/ n mod 10 = 3
          \/ n mod 10 = 4 \/ n mod 10 = 5 \/ n mod 10 = 6 \/ n mod 10 = 7
          \/ n mod 10 = 8 \/ n mod 10 = 9)%Z as C by lia.
  repeat (destruct C as [->|C]; [reflexivity|]). rewrite C. reflexivity.
Qed.

(** [parseInt] on a string that starts with two decimal digits. *)
Lemma parseInt_two_digits a b rest :
  ParseInt.parseInt (String (digit a) (String (digit b) rest))
  = option_map (Z.mul 1)
      (ParseInt.digits 10 rest (Some ((a mod 10) * 10 + b mod 10)%Z)).
Proof.
  unfold digit.
  pose proof (Z.mod_pos_bound a 10 eq_refl) as Ha.
  pose proof (Z.mod_pos_bound b 10 eq_refl) as Hb.
  assert (a mod 10 = 0 \/ a mod 10 = 1 \/ a mod 10 = 2 \/ a mod 10 = 3
          \/ a mod 10 = 4 \/ a mod 10 = 5 \/ a mod 10 = 6 \/ a mod 10 = 7
          \/ a mod 10 = 8 \/ a mod 10 = 9)%Z as Ca by lia.
  assert (b mod 10 = 0 \/ b mod 10 = 1 \/ b mod 10 = 2 \/ b mod 10 = 3
          \/ b mod 10 = 4 \/ b mod 10 = 5 \/ b mod 10 = 6 \/ b mod 10 = 7
          \/ b mod 10 = 8 \/ b mod 10 = 9)%Z as Cb by lia.
  repeat (destruct Ca as [->|Ca]; [|]); try rewrite Ca;
    repeat (destruct Cb as [->|Cb]; [|]); try rewrite Cb;
    destruct rest; reflexivity.
Qed.

Lemma parseInt_fixed_width k :
  (0 <= k < 10000)%Z -> ParseInt.parseInt (fixed_width 4 k) = Some k.
Proof.
  intros Hk.
  change (fixed_width 4 k)
    with (String (digit (k / 10 / 10 / 10))
            (String (digit (k / 10 / 10))
               (String (digit (k / 10)) (String (digit k) "")))).
  rewrite parseInt_two_digits. cbn [ParseInt.digits].
  rewrite !digit_value_digit. cbn [ParseInt.digits option_map]. f_equal.
  Z.div_mod_to_equations. lia.
Qed.

(** *** The hook on a sequential collection *)

Lemma format_expected now n :
  wf_date now -> (1 <= n <= 9999)%Z ->
  format_orderNumber now (Some n) = expected_orderNumber now n.
Proof.
  intros (Hy & Hm & Hd & _) Hn. unfold format_orderNumber, expected_orderNumber.
  cbn [ParseInt.toString].
  rewrite year_two_digits, !padStart_two, padStart_four by lia. reflexivity.
Qed.

Lemma parse_expected d n :
  (0 <= n < 10000)%Z ->
  ParseInt.parseInt (substr_last 4 (expected_orderNumber d n)) = Some n.
Proof.
  intros Hn. unfold expected_orderNumber.
  rewrite <- !string_app_assoc.
  rewrite <- (length_fixed_width 4 n) at 1.
  rewrite substr_last_app. apply parseInt_fixed_width, Hn.
Qed.

Lemma findLastToday_snoc d l o :
  findLastToday d (l ++ [o])
  = if created_today d o then later_of (findLastToday d l) o
    else findLastToday d l.
Proof. unfold findLastToday. rewrite fold_left_app. reflexivity. Qed.

Lemma findLastToday_In d l b :
  findLastToday d l = Some b -> In b l.
Proof.
  revert b. induction l as [|o l IH] using rev_ind; intros b.
  - discriminate.
  - rewrite findLastToday_snoc, in_app_iff. cbn [In].
    destruct (created_today d o); [|intros H; left; apply IH, H].
    unfold later_of. destruct (findLastToday d l) as [b'|].
    + destruct (Date_ltb (createdAt b') (createdAt o)); intros [= <-]; auto.
    + intros [= <-]. auto.
Qed.

Lemma count_today_snoc d l o :
  count_today d (l ++ [o])
  = (count_today d l + (if created_today d o then 1 else 0))%Z.
Proof.
  unfold count_today. rewrite List.filter_app, length_app. cbn [List.filter].
  destruct (created_today d o); cbn [length]; lia.
Qed.

Lemma count_today_nonneg d l : (0 <= count_today d l)%Z.
Proof. unfold count_today. lia. Qed.

(** An order created today has today's calendar fields. *)
Lemma created_today_fields d o :
  created_today d o = true -> (0 <= msOfDay (createdAt o))%Z ->
  getFullYear (createdAt o) = getFullYear d
  /\ getMonth (createdAt o) = getMonth d
  /\ getDate (createdAt o) = getDate d.
Proof.
  unfold created_today, Date_leb, Date_ltb.
  cbn [getFullYear getMonth getDate msOfDay].
  intros H Hms.
  repeat match type of H with
         | context [(?a <? ?b)%Z] => destruct (Z.ltb_spec a b)
         | context [(?a =? ?b)%Z] => destruct (Z.eqb_spec a b)
         end; cbn in H; try discriminate; lia.
Qed.

Lemma same_day_created_today d d' o :
  getFullYear d' = getFullYear d -> getMonth d' = getMonth d ->
  getDate d' = getDate d -> created_today d' o = created_today d o.
Proof. unfold created_today. intros -> -> ->. reflexivity. Qed.

Lemma same_day_count d d' l :
  getFullYear d' = getFullYear d -> getMonth d' = getMonth d ->
  getDate d' = getDate d -> count_today d' l = count_today d l.
Proof.
  intros Hy Hm Hd. unfold count_today. do 2 f_equal.
  apply List.filter_ext. intros o. apply same_day_created_today; assumption.
Qed.

Lemma same_day_expected d d' n :
  getFullYear d' = getFullYear d -> getMonth d' = getMonth d ->
  getDate d' = getDate d ->
  expected_orderNumber d' n = expected_orderNumber d n.
Proof. unfold expected_orderNumber. intros -> -> ->. reflexivity. Qed.

Lemma generate_on_sequential l :
  Sequential l ->
  forall now, wf_date now -> (count_today now l < 9999)%Z ->
  generate_orderNumber now l
  = expected_orderNumber now (count_today now l + 1).
Proof.
  induction 1 as [|l o Hseq IH Hwf Hlater Hnum]; intros now Hnow Hcount.
  - change (generate_orderNumber now []) with (format_orderNumber now (Some 1%Z)).
    change (count_today now [] + 1)%Z with 1%Z.
    apply format_expected; [assumption|lia].
  - unfold generate_orderNumber in *.
    rewrite findLastToday_snoc. rewrite count_today_snoc in Hcount |- *.
    destruct (created_today now o) eqn:Eo.
    + destruct (created_today_fields _ _ Eo) as (Hy & Hm & Hd); [apply Hwf|].
      assert (later_of (findLastToday now l) o = Some o) as ->.
      { unfold later_of. destruct (findLastToday now l) as [b|] eqn:Eb; [|reflexivity].
        rewrite (Hlater b (findLastToday_In _ _ _ Eb)). reflexivity. }
      pose proof (count_today_nonneg now l).
      rewrite (same_day_count now (createdAt o)) in Hnum by assumption.
      rewrite (same_day_expected now (createdAt o)) in Hnum by assumption.
      cbn [next_sequence]. rewrite Hnum by lia.
      change (expected_orderNumber now (count_today now l + 1))
        with (String "O" (String "R" (String "D"
                (fixed_width 2 (getFullYear now mod 100)
                 ++ fixed_width 2 (getMonth now + 1)
                 ++ fixed_width 2 (getDate now)
                 ++ fixed_width 4 (count_today now l + 1))))) at 1.
      cbv iota.
      change (String "O" (String "R" (String "D"
                (fixed_width 2 (getFullYear now mod 100)
                 ++ fixed_width 2 (getMonth now + 1)
                 ++ fixed_width 2 (getDate now)
                 ++ fixed_width 4 (count_today now l + 1)))))
        with (expected_orderNumber now (count_today now l + 1)).
      rewrite parse_expected by lia. cbn [option_map].
      apply format_expected; [assumption|lia].
    + rewrite Z.add_0_r in *. apply IH; assumption.
Qed.

Lemma length_expected d n : String.length (expected_orderNumber d n) = 13%nat.
Proof.
  unfold expected_orderNumber.
  rewrite !string_length_app, !length_fixed_width. reflexivity.
Qed.




(** What [save] stores for a new document that passes validation. *)
Lemma save_new now l d :
  isNew d = true -> validate d = true ->
  let o := set_createdAt now
             (push_history (History.mk (status (doc d)) now "Order created" None)
                (set_orderNumber (generate_orderNumber now l) (doc d))) in
  Order.save now l d = Ok ((l ++ [o])%list, load o).
Proof.
  destruct d as [o n m a]. cbn [isNew]. intros -> Hv.
  unfold Order.save. rewrite Hv.
  unfold hook_orderNumber, hook_statusHistory, hook_created, update.
  cbn [isNew status_modified doc negb andb]. rewrite andb_false_r.
  cbn [isNew doc]. destruct o; reflexivity.
Qed.

(** A new document, and two stored orders: one with the number format of
    the seed script, created on another day, and the pending order of the
    examples. *)
Definition blank_order (id : ObjectId) : Order :=
  new_order id OrderFacts.alice OrderFacts.sample_body [] 0%float 0%float
            0%float 0%float 0%float (CartFacts.sample_day 0).




(** *** A day with 9999 orders, and a day with a removed order *)

Definition numbered (k : nat) : Order :=
  set_createdAt (CartFacts.sample_day (Z.of_nat k))
    (set_orderNumber
       (expected_orderNumber (CartFacts.sample_day 0) (Z.of_nat k))
       (blank_order (pretty k))).

Definition day_orders (n : nat) : list Order := map numbered (seq 1 n).



Lemma day_orders_S n :
  day_orders (S n) = (day_orders n ++ [numbered (S n)])%list.
Proof. unfold day_orders. rewrite seq_S, map_app. reflexivity. Qed.

Lemma created_today_sample t k o :
  (0 <= k)%Z -> createdAt o = CartFacts.sample_day k ->
  created_today (CartFacts.sample_day t) o = true.
Proof.
  intros Hk E. unfold created_today, Date_leb, Date_ltb. rewrite E.
  cbn [getFullYear getMonth getDate msOfDay CartFacts.sample_day].
  destruct (Z.ltb_spec k 0); [lia|]. reflexivity.
Qed.

Lemma count_day_orders t n :
  count_today (CartFacts.sample_day t) (day_orders n) = Z.of_nat n.
Proof.
  induction n as [|n IH]; [reflexivity|].
  rewrite day_orders_S, count_today_snoc, IH.
  rewrite (created_today_sample t (Z.of_nat (S n))) by (lia || reflexivity).
  lia.
Qed.

Lemma day_orders_earlier n o' t :
  In o' (day_orders n) -> (Z.of_nat n < t)%Z ->
  Date_ltb (createdAt o') (CartFacts.sample_day t) = true.
Proof.
  unfold day_orders. intros Hin Ht.
  apply in_map_iff in Hin as [j [<- Hj]]. apply in_seq in Hj.
  change (createdAt (numbered j)) with (CartFacts.sample_day (Z.of_nat j)).
  unfold Date_ltb. cbn [getFullYear getMonth getDate msOfDay CartFacts.sample_day].
  destruct (Z.ltb_spec (Z.of_nat j) t); [reflexivity|lia].
Qed.

Lemma wf_sample_day k : (0 <= k)%Z -> wf_date (CartFacts.sample_day k).
Proof. intros Hk. unfold wf_date. cbn. lia. Qed.

(** The orders [numbered 1 .. numbered n] are what the hook leaves. *)
Lemma day_orders_sequential n : Sequential (day_orders n).
Proof.
  induction n as [|n IH]; [constructor|].
  rewrite day_orders_S. apply Sequential_snoc; [exact IH|..].
  - apply wf_sample_day. lia.
  - intros o' Hin. apply (day_orders_earlier n); [exact Hin|lia].
  - intros _.
    change (createdAt (numbered (S n)))
      with (CartFacts.sample_day (Z.of_nat (S n))).
    rewrite count_day_orders.
    replace (Z.of_nat n + 1)%Z with (Z.of_nat (S n)) by lia. reflexivity.
Qed.





End OrderNumberFacts.

(* ================================================================== *)
(** * Further properties of the models *)
(* ================================================================== *)

(** ** Stock *)

Module StockFacts.
Import Product.

(** X1. When [updateStock] returns, the stored count is not negative, the
    status is out_of_stock exactly when the count equals 0, and the
    identifier, name, price and active flag are those of the product. *)
Theorem updateStock_count_and_status :
  forall quantity operation p p',
    updateStock quantity operation p = Ok p' ->
    PrimFloat.leb 0%float (countInStock p') = true
    /\ (status p' = "out_of_stock"
        <-> PrimFloat.eqb (countInStock p') 0%float = true)
    /\ _id p' = _id p /\ name p' = name p /\ price p' = price p
    /\ isActive p' = isActive p.
Proof.
  intros quantity operation p p'. unfold updateStock, bind.
  match goal with
  | |- match ?x with _ => _ end = _ -> _ => destruct x as [stock|e]
  end; [|discriminate].
  unfold save, validate, JS.ge, JS.strict_eq. cbn [countInStock set_stock].
  destruct (PrimFloat.leb 0%float stock) eqn:Eval; [|discriminate].
  intros [= <-]. cbn [countInStock status _id name price isActive set_stock].
  split; [exact Eval|]. split; [|repeat split].
  destruct (PrimFloat.eqb stock 0%float); [tauto|].
  destruct (String.eqb_spec (status p) "out_of_stock") as [E|E].
  - split; discriminate.
  - split; [intros H; contradiction|discriminate].
Qed.

Lemma updateStock_count_and_status_witness :
  exists p',
    updateStock 5%float "subtract" CartFacts.sample_product = Ok p'
    /\ status p' = "out_of_stock".
Proof.
  eexists. split; [vm_compute; reflexivity|].
  apply (updateStock_count_and_status 5%float "subtract"
           CartFacts.sample_product).
  - vm_compute. reflexivity.
  - vm_compute. reflexivity.
Defined.

(** X2. [updateStock] with 'subtract' throws "Insufficient stock" exactly
    when the count is below the requested quantity, and an operation other
    than 'subtract' and 'add' leaves the count as it is. *)
Theorem updateStock_subtract_guard :
  forall quantity p,
    (updateStock quantity "subtract" p = Throw (Error_ "Insufficient stock")
     <-> PrimFloat.ltb (countInStock p) quantity = true)
    /\ (forall operation p',
           operation <> "subtract" -> operation <> "add" ->
           updateStock quantity operation p = Ok p' ->
           countInStock p' = countInStock p).
Proof.
  intros quantity p. split.
  - unfold updateStock, bind, JS.lt. cbn [String.eqb Ascii.eqb Bool.eqb].
    destruct (PrimFloat.ltb (countInStock p) quantity); [tauto|].
    split; [|discriminate].
    unfold save. destruct (validate _); discriminate.
  - intros operation p' H1 H2. unfold updateStock, bind.
    destruct (String.eqb_spec operation "subtract"); [contradiction|].
    destruct (String.eqb_spec operation "add"); [contradiction|].
    unfold save. destruct (validate _); [|discriminate].
    intros [= <-]. reflexivity.
Qed.

Lemma updateStock_subtract_guard_witness :
  updateStock 6%float "subtract" CartFacts.sample_product
  = Throw (Error_ "Insufficient stock").
Proof.
  apply (proj1 (updateStock_subtract_guard 6%float CartFacts.sample_product)).
  vm_compute. reflexivity.
Defined.

End StockFacts.

(** ** Cart methods *)

Module CartMethodFacts.
Import Cart CartFacts.

Lemma save_not_Error now c msg : save now c <> Throw (Error_ msg).
Proof. unfold save. destruct (validate c); discriminate. Qed.



(** X6. [removeItem] throws "Item not found in cart" exactly when no line
    has the (product, variant) pair; when it returns, exactly the first
    such line is gone and the other lines are kept in order. *)
Theorem removeItem_first_match :
  forall now productId variant' c,
    (removeItem now productId variant' c = Throw (Error_ "Item not found in cart")
     <-> forall line, In line (items c) -> same_line productId variant' line = false)
    /\ (forall c',
           removeItem now productId variant' c = Ok c' ->
           exists i line,
             items c !! i = Some line
             /\ same_line productId variant' line = true
             /\ (forall j line', (j < i)%nat -> items c !! j = Some line' ->
                                 same_line productId variant' line' = false)
             /\ items c' = delete i (items c)
             /\ S (length (items c')) = length (items c)).
Proof.
  intros now productId variant' c. unfold removeItem.
  destruct (findIndex (same_line productId variant') (items c)) as [i|] eqn:Ei.
  - destruct (findIndex_Some _ _ _ Ei) as [line [Hl Hm]]. split.
    + split; [intros H; destruct (save_not_Error _ _ _ H)|].
      intros H. apply list_elem_of_lookup_2, list_elem_of_In in Hl.
      rewrite (H line Hl) in Hm. discriminate.
    + intros c' H. apply save_Ok in H as [_ ->].
      exists i, line. cbn [items pre_save set_items].
      split; [exact Hl|]. split; [exact Hm|]. split; [|split; [reflexivity|]].
      * clear Hl Hm. revert i Ei. induction (items c) as [|a l IH]; intros i Ei j line' Hj Hl'.
        { discriminate. }
        cbn [findIndex] in Ei. destruct (same_line productId variant' a) eqn:Ea.
        { injection Ei as <-. lia. }
        destruct (findIndex (same_line productId variant') l) as [k|]; [|discriminate].
        injection Ei as <-. destruct j as [|j].
        { injection Hl' as <-. exact Ea. }
        apply (IH k eq_refl j); [lia|exact Hl'].
      * rewrite length_delete by (rewrite Hl; eauto).
        apply lookup_lt_Some in Hl. lia.
  - split.
    + split; [|reflexivity]. intros _ line Hin.
      apply (findIndex_None _ _ _ Ei Hin).
    + discriminate.
Qed.

Lemma removeItem_first_match_witness :
  removeItem (sample_day 5000) "65a000000000000000000002" None sample_cart
  = Throw (Error_ "Item not found in cart").
Proof.
  apply (proj1 (removeItem_first_match (sample_day 5000)
                  "65a000000000000000000002" None sample_cart)).
  intros line [<-|[]]. vm_compute. reflexivity.
Defined.

(** *** Coupons *)

Lemma upper_char_idempotent c : upper_char (upper_char c) = upper_char c.
Proof.
  destruct c as [b0 b1 b2 b3 b4 b5 b6 b7].
  destruct b0, b1, b2, b3, b4, b5, b6, b7; reflexivity.
Qed.

Lemma toUpperCase_idempotent s : toUpperCase (toUpperCase s) = toUpperCase s.
Proof.
  induction s as [|c s IH]; [reflexivity|].
  cbn [toUpperCase]. rewrite upper_char_idempotent, IH. reflexivity.
Qed.

(** X7. Coupon codes are case-insensitive: [applyCoupon] gives the same
    result for a code and for its upper-case form, and the code it stores
    is the upper-case form. *)
Theorem applyCoupon_case_insensitive :
  forall now code c,
    applyCoupon now (toUpperCase code) c = applyCoupon now code c
    /\ (forall c', applyCoupon now code c = Ok c' ->
                   couponCode c' = Some (toUpperCase code)).
Proof.
  intros now code c. unfold applyCoupon. rewrite toUpperCase_idempotent.
  split; [reflexivity|].
  intros c'. destruct (coupons (toUpperCase code)) as [coupon|]; [|discriminate].
  destruct (JS.lt (subtotal c) (minAmount coupon)); [discriminate|].
  intros H. apply save_Ok in H as [_ ->]. reflexivity.
Qed.

Lemma applyCoupon_case_insensitive_witness :
  exists c',
    applyCoupon (sample_day 3000) "Save10" sample_cart = Ok c'
    /\ couponCode c' = Some "SAVE10".
Proof.
  eexists. split; [vm_compute; reflexivity|].
  apply (proj2 (applyCoupon_case_insensitive (sample_day 3000) "Save10"
                  sample_cart)).
  vm_compute. reflexivity.
Defined.

(** The discount of a coupon on a subtotal, as [applyCoupon] computes it. *)
Definition coupon_discount (coupon : Coupon) (subtotal' : Number) : Number :=
  match type coupon with
  | percentage => PrimFloat.div (PrimFloat.mul subtotal' (value coupon)) 100%float
  | fixed => value coupon
  end.

Lemma coupons_known k :
  match coupons k with
  | Some coupon =>
      In k ["SAVE10"; "SAVE20"; "FLAT15"]
      /\ In (minAmount coupon) [50%float; 100%float; 75%float]
  | None => ~ In k ["SAVE10"; "SAVE20"; "FLAT15"]
  end.
Proof.
  unfold coupons.
  destruct (String.eqb_spec k "SAVE10") as [->|E1]; [cbn; tauto|].
  destruct (String.eqb_spec k "SAVE20") as [->|E2]; [cbn; tauto|].
  destruct (String.eqb_spec k "FLAT15") as [->|E3]; [cbn; tauto|].
  intros [H|[H|[H|[]]]]; congruence.
Qed.

Lemma applyCoupon_known now code c coupon :
  coupons (toUpperCase code) = Some coupon ->
  applyCoupon now code c
  = if PrimFloat.ltb (subtotal c) (minAmount coupon)
    then Throw (MinimumAmountError (minAmount coupon))
    else save now (set_coupon (Some (toUpperCase code))
                              (coupon_discount coupon (subtotal c)) c).
Proof. intros H. unfold applyCoupon. rewrite H. reflexivity. Qed.

(** X8. [applyCoupon] throws "Invalid coupon code" exactly when the
    upper-cased code is none of SAVE10, SAVE20 and FLAT15, and throws the
    minimum-amount error of a known coupon exactly when the stored subtotal
    is below its minimum (50, 100 or 75); when it returns, the lines are
    untouched and the discount is subtotal x value / 100 for a percentage
    coupon and the flat value for a fixed one. *)
Theorem applyCoupon_outcomes :
  forall now code c,
    (applyCoupon now code c = Throw (Error_ "Invalid coupon code")
     <-> ~ In (toUpperCase code) ["SAVE10"; "SAVE20"; "FLAT15"])
    /\ (forall m,
           applyCoupon now code c = Throw (MinimumAmountError m)
           <-> exists coupon, coupons (toUpperCase code) = Some coupon
                              /\ m = minAmount coupon
                              /\ PrimFloat.ltb (subtotal c) m = true)
    /\ (forall c',
           applyCoupon now code c = Ok c' ->
           exists coupon,
             coupons (toUpperCase code) = Some coupon
             /\ In (minAmount coupon) [50%float; 100%float; 75%float]
             /\ PrimFloat.ltb (subtotal c) (minAmount coupon) = false
             /\ items c' = items c
             /\ couponDiscount c' = coupon_discount coupon (subtotal c)).
Proof.
  intros now code c.
  pose proof (coupons_known (toUpperCase code)) as Hk.
  destruct (coupons (toUpperCase code)) as [coupon|] eqn:Ec.
  - destruct Hk as [Hin Hmin].
    rewrite (applyCoupon_known now code c coupon Ec).
    destruct (PrimFloat.ltb (subtotal c) (minAmount coupon)) eqn:El.
    + split; [|split].
      * split; [discriminate|]. intros H. destruct (H Hin).
      * intros m. split.
        -- intros [= <-]. exists coupon. repeat split. exact El.
        -- intros [coupon' [[= <-] [-> _]]]. reflexivity.
      * discriminate.
    + split; [|split].
      * split; [intros H; destruct (save_not_Error _ _ _ H)|].
        intros H. destruct (H Hin).
      * intros m. split.
        -- unfold save. destruct (validate _); discriminate.
        -- intros [coupon' [[= <-] [-> H]]]. congruence.
      * intros c' H. apply save_Ok in H as [_ ->].
        exists coupon. repeat split; assumption.
  - unfold applyCoupon. rewrite Ec. split; [|split].
    + split; [intros _; exact Hk|reflexivity].
    + intros m. split; [discriminate|]. intros [coupon [? _]]. discriminate.
    + discriminate.
Qed.

Lemma applyCoupon_outcomes_witness :
  applyCoupon (sample_day 3000) "save20" sample_cart
  = Throw (MinimumAmountError 100%float).
Proof.
  apply (proj1 (proj2 (applyCoupon_outcomes (sample_day 3000) "save20"
                         sample_cart))).
  eexists. split; [vm_compute; reflexivity|].
  split; vm_compute; reflexivity.
Defined.

(** X9. A cart returned by [clearCart] has no line and no coupon, subtotal
    0, tax 0 and discount 0, and still carries the flat shipping of 10, so
    its total is 10. *)
Theorem clearCart_leaves_shipping :
  forall now c c',
    clearCart now c = Ok c' ->
    items c' = [] /\ couponCode c' = None /\ couponDiscount c' = 0%float
    /\ subtotal c' = 0%float /\ tax c' = 0%float
    /\ shipping c' = 10%float /\ total c' = 10%float.
Proof.
  intros now c c' H. apply save_Ok in H as [_ ->]. repeat split.
Qed.

Lemma clearCart_leaves_shipping_witness :
  exists c', clearCart (sample_day 5000) sample_cart = Ok c'
             /\ total c' = 10%float.
Proof.
  eexists. split; [vm_compute; reflexivity|].
  apply (clearCart_leaves_shipping (sample_day 5000) sample_cart).
  vm_compute. reflexivity.
Defined.

(** *** Merging a guest cart *)








(** *** Checking the lines against the catalog *)

Definition line_is_sound (catalog : gmap string Product.Product)
    (line : CartItem) : Prop :=
  exists p, catalog !! product line = Some p
            /\ Product.isActive p = true
            /\ PrimFloat.ltb (Product.countInStock p) (quantity line) = false
            /\ PrimFloat.eqb (Product.price p) (price line) = true.

Lemma check_item_None catalog line :
  check_item catalog line = None <-> line_is_sound catalog line.
Proof.
  unfold check_item, line_is_sound, JS.lt, JS.strict_eq.
  destruct (catalog !! product line) as [p|].
  - destruct (Product.isActive p) eqn:Ea; cbn [negb].
    + destruct (PrimFloat.ltb (Product.countInStock p) (quantity line)) eqn:El.
      * split; [discriminate|]. intros [p' [[= <-] [_ [H _]]]]. congruence.
      * destruct (PrimFloat.eqb (Product.price p) (price line)) eqn:Ep; cbn [negb].
        -- split; [|reflexivity]. intros _. exists p. repeat split; assumption.
        -- split; [discriminate|].
           intros [p' [[= <-] [_ [_ H]]]]. congruence.
    + split; [discriminate|]. intros [p' [[= <-] [H _]]]. congruence.
  - split; [discriminate|]. intros [p' [? _]]. discriminate.
Qed.

(** X11. [validateCartItems] reports nothing exactly when every line's
    product is in the catalog, active, not short of the line's quantity
    and priced as the line; it reports at most one problem per line. *)
Theorem validateCartItems_empty_iff :
  forall catalog c,
    (validateCartItems catalog c = []
     <-> forall line, In line (items c) -> line_is_sound catalog line)
    /\ (length (validateCartItems catalog c) <= length (items c))%nat.
Proof.
  intros catalog c. unfold validateCartItems.
  induction (items c) as [|line l [IH1 IH2]].
  - split; [|reflexivity]. split; [intros _ ? []|reflexivity].
  - cbn [omap list_omap In length].
    pose proof (check_item_None catalog line) as Hc.
    destruct (check_item catalog line) as [pb|].
    + split; [|cbn [length]; lia]. split; [discriminate|].
      intros H. assert (Some pb = None) by (apply Hc, H; left; reflexivity).
      discriminate.
    + split; [|lia]. rewrite IH1. split.
      * intros H l' [<-|Hin]; [apply Hc; reflexivity|apply H, Hin].
      * intros H l' Hin. apply H. right. exact Hin.
Qed.

Lemma validateCartItems_empty_iff_witness :
  validateCartItems sample_catalog sample_cart = [].
Proof.
  apply (proj1 (validateCartItems_empty_iff sample_catalog sample_cart)).
  intros line [<-|[]]. eexists. split; [vm_compute; reflexivity|].
  repeat split.
Defined.

End CartMethodFacts.

(** ** The status history under the order handlers *)

Module HistoryFacts.
Import Order OrderFacts.

Lemma stamp_dates_frame now o :
  statusHistory (stamp_dates now o) = statusHistory o
  /\ status (stamp_dates now o) = status o.
Proof.
  unfold stamp_dates. destruct (status o) eqn:Es; repeat case_match;
    cbn; rewrite ?Es; split; reflexivity.
Qed.

(** The entry the status hook pushes. *)
Definition hook_entry (now : Date) (s : Status) : HistoryEntry :=
  History.mk s now ("Status updated to " ++ Status_toString s) None.

(** The document [save] stores for a loaded one. *)
Definition saved (now : Date) (d : Document) : Order :=
  doc (hook_statusHistory now d).

(** [save] on a loaded document, field by field. *)
Lemma save_loaded_summary now orders d :
  isNew d = false ->
  let o := doc d in
  let o' := saved now d in
  save now orders d
  = (if validate d then Ok (replace o' orders, load o')
     else Throw ValidationError)
  /\ _id o' = _id o /\ user o' = user o /\ status o' = status o
  /\ isPaid o' = isPaid o /\ paidAt o' = paidAt o
  /\ paymentResult o' = paymentResult o /\ orderItems o' = orderItems o
  /\ statusHistory o'
     = if status_modified d
       then (statusHistory o ++ [hook_entry now (status o)])%list
       else statusHistory o.
Proof.
  intros Hnew. cbv zeta. split.
  { destruct (validate d) eqn:Hv.
    - apply save_loaded; assumption.
    - apply save_invalid, Hv. }
  unfold saved.
  pose proof (hook_statusHistory_frame now d) as F. cbv zeta in F.
  destruct F as (F1 & F2 & F3 & F4 & F5 & F6 & F7 & _).
  repeat (split; [first [reflexivity | assumption]|]).
  destruct d as [o n m a]. cbn [isNew] in Hnew. subst n.
  unfold hook_statusHistory. cbn [status_modified isNew doc negb].
  rewrite andb_true_r. destruct m; [|reflexivity].
  unfold update. cbn [doc].
  rewrite (proj1 (stamp_dates_frame now _)). reflexivity.
Qed.

(** The collection after a model method: what it stored, or the
    collection as it was when the method threw. *)
Definition collection_after (r : result (list Order * Document))
    (l : list Order) : list Order :=
  match r with
  | Ok (l', _) => l'
  | Throw _ => l
  end.

(** One collection continues another: every order is still there and its
    history has only grown at the end. *)
Definition continues (l l' : list Order) : Prop :=
  forall id o,
    findById id l = Some o ->
    exists o' suffix,
      findById id l' = Some o'
      /\ statusHistory o' = (statusHistory o ++ suffix)%list.

Lemma continues_refl l : continues l l.
Proof.
  intros id o H. exists o, []. split; [exact H|]. rewrite app_nil_r. reflexivity.
Qed.

Lemma continues_trans l1 l2 l3 :
  continues l1 l2 -> continues l2 l3 -> continues l1 l3.
Proof.
  intros H12 H23 id o H.
  destruct (H12 id o H) as (o2 & s2 & F2 & E2).
  destruct (H23 id o2 F2) as (o3 & s3 & F3 & E3).
  exists o3, (s2 ++ s3)%list. split; [exact F3|].
  rewrite E3, E2, app_assoc. reflexivity.
Qed.

Lemma continues_snoc l x : continues l (l ++ [x]).
Proof.
  intros id o H. exists o, []. rewrite app_nil_r. split; [|reflexivity].
  unfold findById in *. induction l as [|a l IH]; [discriminate|].
  cbn [find app] in *. destruct (String.eqb (_id a) id); [exact H|apply IH, H].
Qed.

Lemma findById_replace_other id l o2 :
  _id o2 <> id -> findById id (replace o2 l) = findById id l.
Proof.
  intros Hne. unfold findById, replace.
  induction l as [|a l IH]; [reflexivity|]. cbn [find map].
  destruct (String.eqb_spec (_id a) (_id o2)) as [E|E].
  - destruct (String.eqb_spec (_id o2) id) as [E2|E2]; [contradiction|].
    destruct (String.eqb_spec (_id a) id) as [E3|E3]; [congruence|]. exact IH.
  - destruct (String.eqb (_id a) id); [reflexivity|exact IH].
Qed.

Lemma continues_replace l o1 o2 suffix :
  findById (_id o1) l = Some o1 -> _id o2 = _id o1 ->
  statusHistory o2 = (statusHistory o1 ++ suffix)%list ->
  continues l (replace o2 l).
Proof.
  intros Hf Hid Hh id o H.
  destruct (String.eqb_spec (_id o2) id) as [E|E].
  - subst id. rewrite Hid in H. rewrite Hf in H. injection H as <-.
    exists o2, suffix. split; [|exact Hh].
    apply (findById_replace _ _ o1); [rewrite Hid; exact Hf|reflexivity].
  - exists o, []. rewrite app_nil_r. split; [|reflexivity].
    rewrite findById_replace_other by exact E. exact H.
Qed.

Lemma findById_id id l o : findById id l = Some o -> findById (_id o) l = Some o.
Proof. intros H. rewrite (proj1 (findById_Some _ _ _ H)). exact H. Qed.

(** What [save] stores for a loaded order continues the collection. *)
Lemma save_continues now l o d :
  findById (_id o) l = Some o -> isNew d = false ->
  _id (doc d) = _id o ->
  (exists suffix, statusHistory (doc d) = (statusHistory o ++ suffix)%list) ->
  continues l (collection_after (save now l d) l).
Proof.
  intros Hf Hnew Hid [suffix Hh].
  pose proof (save_loaded_summary now l d Hnew) as S. cbv zeta in S.
  destruct S as (E & S1 & _ & _ & _ & _ & _ & _ & S8).
  rewrite E. destruct (validate d); cbn [collection_after];
    [|apply continues_refl].
  destruct (status_modified d).
  - apply (continues_replace l o _ (suffix ++ [hook_entry now (status (doc d))]));
      [exact Hf|congruence|].
    rewrite S8, Hh, app_assoc. reflexivity.
  - apply (continues_replace l o _ suffix); [exact Hf|congruence|].
    rewrite S8. exact Hh.
Qed.

End HistoryFacts.

(* ================================================================== *)
(** ** Two more handlers *)
(* ================================================================== *)

(** *** POST /api/payments/refund *)

(** [isFloat({ min })] on a JSON number. *)
Definition isFloat_min (min : Number) (f : Number) : bool := JS.ge f min.

(** The handler; [gateway_ok] tells whether the gateway's refund call
    returns ([true]) or throws ([false]).  As in the confirm endpoint, what
    is thrown inside the [try] block is replaced by the [catch] block. *)
Definition refund (now : Date) (user : User.User) (orderId : string)
    (amount : option Number) (reason : option string) (gateway_ok : bool)
    (st : State) : Response * State :=
  if negb (User.isAdmin user)
  then (Failure (Some 403%nat) (Error_ "Admin access required"), st)
  else
    match (Validator.check (Validator.isMongoId orderId) "Invalid order ID"
           ++ Validator.check
                (match amount with
                 | Some a => isFloat_min 0.01%float a
                 | None => true
                 end)
                "Refund amount must be positive")%list with
    | (_ :: _) as errs =>
        (Failure (Some 400%nat) (Error_ (Validator.join errs)), st)
    | [] =>
        match Order.findById orderId (orders st) with
        | None => (Failure (Some 404%nat) (Error_ "Order not found"), st)
        | Some order =>
            if negb (Order.isPaid order)
            then (Failure (Some 400%nat)
                          (Error_ "Order is not paid, cannot refund"), st)
            else
              match Order.paymentResult order with
              | None =>
                  (Failure (Some 400%nat)
                           (Error_ "Payment transaction ID not found"), st)
              | Some pr =>
                  if negb (truthy (PaymentResult.transactionId pr))
                  then (Failure (Some 400%nat)
                                (Error_ "Payment transaction ID not found"), st)
                  else
                    let failed :=
                      (Failure (Some 500%nat)
                               (Error_ "Failed to process refund"), st) in
                    let supported :=
                      match PaymentResult.paymentMethod pr with
                      | Some m => String.eqb m "stripe" || String.eqb m "razorpay"
                      | None => false
                      end in
                    if supported && gateway_ok then
                      let d1 := Order.assign_status refunded (Order.load order) in
                      let d2 :=
                        Order.update
                          (fun o =>
                             Order.set_refundReason
                               (Some (if truthy reason then default "" reason
                                      else "Refunded by admin"))
                               (Order.set_refundedAt (Some now) o))
                          d1 in
                      match Order.save now (orders st) d2 with
                      | Throw _ => failed
                      | Ok (orders', d) =>
                          (Json 200 "Refund processed successfully"
                                (Some (Order.doc d)),
                           with_orders orders' st)
                      end
                    else failed
              end
        end
    end.

(** *** POST /api/orders/:id/reorder *)

(** The lines of the original order that can be ordered again. *)
Definition reorder_available (catalog : gmap string Product.Product)
    (item : Order.OrderItem) : bool :=
  match catalog !! Order.product item with
  | Some p =>
      Product.isActive p
      && JS.ge (Product.countInStock p) (Order.quantity item)
  | None => false
  end.

(** The handler answers with the available lines and the count of the
    others; it stores nothing. *)
Definition reorder (user : User.User) (id : ObjectId) (st : State)
    : (nat * Error) + (list ReqItem * nat) :=
  match Order.findById id (orders st) with
  | None => inl (404%nat, Error_ "Original order not found")
  | Some originalOrder =>
      if negb (String.eqb (Order.user originalOrder) (User._id user))
      then inl (403%nat, Error_ "Not authorized to access this order")
      else
        let availableItems :=
          map (fun item => mkReqItem (Order.product item) (Order.quantity item)
                                     (Order.variant item))
              (List.filter (reorder_available (products st))
                           (Order.orderItems originalOrder)) in
        match availableItems with
        | [] => inl (400%nat,
                     Error_ "No items from the original order are available")
        | _ => inr (availableItems,
                    (length (Order.orderItems originalOrder)
                     - length availableItems)%nat)
        end
  end.

(** *** The order requests as one step function *)

Inductive OrderRequest : Type :=
| ReqCreate (newId : ObjectId) (user : User.User) (body : OrderBody)
| ReqPay (user : User.User) (id : ObjectId)
         (paymentResult : PaymentResult.PaymentResult)
| ReqCancel (user : User.User) (id : ObjectId) (reason : option string)
| ReqStatus (user : User.User) (id : ObjectId) (status : Status)
            (trackingNumber carrier note : option string)
| ReqStripeConfirm (user : User.User) (paymentIntentId orderId : string)
                   (retrieved : option PaymentIntent)
| ReqStripeWebhook (event : option StripeEvent)
| ReqRefund (user : User.User) (orderId : string) (amount : option Number)
            (reason : option string) (gateway_ok : bool).

Definition handle (now : Date) (req : OrderRequest) (st : State)
    : Response * State :=
  match req with
  | ReqCreate newId user body => createOrder now newId user body st
  | ReqPay user id pr => payOrder now user id pr st
  | ReqCancel user id reason => cancelOrderRoute now user id reason st
  | ReqStatus user id s tn ca note => updateOrderStatus now user id s tn ca note st
  | ReqStripeConfirm user pi oid r => stripeConfirm now user pi oid r st
  | ReqStripeWebhook event => stripeWebhook now event st
  | ReqRefund user oid a reason ok => refund now user oid a reason ok st
  end.

Fixpoint handle_all (reqs : list (Date * OrderRequest)) (st : State) : State :=
  match reqs with
  | [] => st
  | (now, req) :: rest => handle_all rest (snd (handle now req st))
  end.

(** ** The handlers on the order collection *)

Module HandlerFacts.
Import Order OrderFacts HistoryFacts.

Ltac history_suffix :=
  first [ exists []; rewrite app_nil_r; reflexivity
        | eexists; reflexivity ].

Lemma updatePaymentStatus_continues now l pr order :
  findById (_id order) l = Some order ->
  continues l (collection_after (updatePaymentStatus now l pr (load order)) l).
Proof.
  intros Hf.
  change (updatePaymentStatus now l pr (load order))
    with (save now l (paying now pr (load order))).
  destruct (paying_fields now pr (load order))
    as (H1 & _ & H2 & _ & _ & _ & _ & H3 & _).
  apply (save_continues now l order); [exact Hf|exact H1|exact H2|].
  exists []. rewrite app_nil_r. exact H3.
Qed.

Lemma cancelOrder_continues now l reason by_ order :
  findById (_id order) l = Some order ->
  continues l (collection_after (cancelOrder now l reason by_ (load order)) l).
Proof.
  intros Hf. unfold cancelOrder. cbn [load doc].
  destruct (status order) eqn:Es; try apply continues_refl;
    apply (save_continues now l order); try exact Hf; try reflexivity;
    history_suffix.
Qed.

Lemma collection_after_Ok {r : result (list Order * Document)} {l l' d} :
  r = Ok (l', d) -> collection_after r l = l'.
Proof. intros ->. reflexivity. Qed.

Lemma handle_continues now req st :
  continues (orders st) (orders (snd (handle now req st))).
Proof.
  destruct req as [newId u body | u id pr | u id reason | u id s tn ca note
                  | u pi oid r | event | u oid a reason ok]; cbn [handle].
  - destruct (createOrder_fails now newId u body st) as (code & e & ->).
    apply continues_refl.
  - unfold payOrder. repeat case_match; subst; cbn [snd orders with_orders];
      try apply continues_refl.
    match goal with
    | H : updatePaymentStatus now (orders st) ?pr (load ?o) = Ok (?l', _) |- _ =>
        rewrite <- (collection_after_Ok (l := orders st) H);
        apply updatePaymentStatus_continues
    end.
    eapply findById_id; eassumption.
  - unfold cancelOrderRoute. repeat case_match; subst; cbn [snd orders];
      try apply continues_refl;
      match goal with
      | H : cancelOrder _ _ _ _ _ = Ok (?l', ?d) |- _ =>
          rewrite <- (collection_after_Ok (l := orders st) H);
          apply cancelOrder_continues
      end; eapply findById_id; eassumption.
  - unfold updateOrderStatus.
    destruct (negb (User.isAdmin u)); [apply continues_refl|].
    destruct (findById id (orders st)) as [order|] eqn:Ef; [|apply continues_refl].
    match goal with
    | |- context [save now (orders st) ?d] =>
        destruct (save now (orders st) d) as [[l' d']|e] eqn:Es;
        cbn [snd orders with_orders]; [|apply continues_refl];
        rewrite <- (collection_after_Ok (l := orders st) Es)
    end.
    apply (save_continues now (orders st) order);
      [eapply findById_id; exact Ef|..];
      destruct (truthy tn), (truthy ca);
      try reflexivity; history_suffix.
  - unfold stripeConfirm. repeat case_match; subst; cbn [snd orders with_orders];
      try apply continues_refl.
    match goal with
    | H : updatePaymentStatus now (orders st) ?pr (load ?o) = Ok (?l', _) |- _ =>
        rewrite <- (collection_after_Ok (l := orders st) H);
        apply updatePaymentStatus_continues
    end.
    eapply findById_id; eassumption.
  - unfold stripeWebhook. repeat case_match; subst; cbn [snd orders with_orders];
      try apply continues_refl.
    match goal with
    | H : updatePaymentStatus now (orders st) ?pr (load ?o) = Ok (?l', _) |- _ =>
        rewrite <- (collection_after_Ok (l := orders st) H);
        apply updatePaymentStatus_continues
    end.
    eapply findById_id; eassumption.
  - unfold refund. repeat case_match; subst; cbn [snd orders with_orders];
      try apply continues_refl;
      match goal with
      | H : save now (orders st) ?d = Ok (?l', _) |- _ =>
          rewrite <- (collection_after_Ok (l := orders st) H)
      end;
      match goal with
      | H : findById _ (orders st) = Some ?o |- _ =>
          apply (save_continues now (orders st) o);
            [eapply findById_id; exact H|reflexivity|reflexivity|history_suffix]
      end.
Qed.

(** X12. Across any sequence of checkouts, payments (pay route, Stripe
    confirm and webhook), cancellations, admin status updates and refunds,
    no order leaves the collection and the statusHistory of every order
    only grows at its end: what was logged is never edited or removed. *)
Theorem statusHistory_append_only :
  forall reqs st id o,
    findById id (orders st) = Some o ->
    exists o' suffix,
      findById id (orders (handle_all reqs st)) = Some o'
      /\ statusHistory o' = (statusHistory o ++ suffix)%list.
Proof.
  intros reqs st. change (continues (orders st) (orders (handle_all reqs st))).
  revert st. induction reqs as [|[now req] reqs IH]; intros st.
  - apply continues_refl.
  - cbn [handle_all]. eapply continues_trans; [apply handle_continues|apply IH].
Qed.

Lemma statusHistory_append_only_witness :
  exists o' suffix,
    findById order1_id
      (orders (handle_all
                 [(CartFacts.sample_day 2000,
                   ReqStripeWebhook (Some (payment_intent_succeeded sample_intent)));
                  (CartFacts.sample_day 3000,
                   ReqStatus root order1_id shipped None None None)]
                 one_order)) = Some o'
    /\ statusHistory o'
       = ([History.mk pending (CartFacts.sample_day 1000) "Order created" None]
          ++ suffix)%list.
Proof.
  apply (statusHistory_append_only
           [(CartFacts.sample_day 2000,
             ReqStripeWebhook (Some (payment_intent_succeeded sample_intent)));
            (CartFacts.sample_day 3000,
             ReqStatus root order1_id shipped None None None)]
           one_order order1_id sample_order).
  vm_compute. reflexivity.
Defined.

(** *** Entries per transition *)

(** The entry the admin status route pushes itself. *)
Definition admin_entry (now : Date) (u : User.User) (s : Status)
    (note : option string) : HistoryEntry :=
  History.mk s now
    (if truthy note then default "" note
     else "Status updated to " ++ Status_toString s ++ " by admin")
    (Some (User._id u)).

(** X13. The admin status route, called by an admin on a stored order,
    always answers 200, stores the requested status and appends to the
    history its own entry; when the requested status differs from the
    stored one the status hook appends a second entry for the same
    transition, and when it is the same status the route's entry is the
    only one. *)
Theorem updateOrderStatus_history :
  forall now u id s tn ca note st order,
    User.isAdmin u = true ->
    findById id (orders st) = Some order ->
    exists o',
      fst (updateOrderStatus now u id s tn ca note st)
      = Json 200 "Order status updated successfully" (Some o')
      /\ findById id (orders (snd (updateOrderStatus now u id s tn ca note st)))
         = Some o'
      /\ status o' = s
      /\ statusHistory o'
         = (statusHistory order
            ++ admin_entry now u s note
               :: (if Status_eqb (status order) s then []
                   else [hook_entry now s]))%list.
Proof.
  intros now u id s tn ca note st order Hadmin Hf.
  unfold updateOrderStatus. rewrite Hadmin, Hf. cbn [negb].
  match goal with
  | |- context [save now (orders st) ?d] => set (d4 := d)
  end.
  assert (isNew d4 = false /\ _id (doc d4) = _id order
          /\ status (doc d4) = s
          /\ status_modified d4 = negb (Status_eqb (status order) s)
          /\ statusHistory (doc d4)
             = (statusHistory order ++ [admin_entry now u s note])%list)
    as (H1 & H2 & H3 & H4 & H5).
  { subst d4. destruct (truthy tn), (truthy ca); repeat split. }
  assert (validate d4 = true) as Hv.
  { apply validate_loaded; [exact H1|].
    subst d4. destruct (truthy tn), (truthy ca); reflexivity. }
  pose proof (save_loaded_summary now (orders st) d4 H1) as S. cbv zeta in S.
  destruct S as (E & S1 & _ & S3 & _ & _ & _ & _ & S8).
  rewrite Hv in E. rewrite E. cbn [fst snd orders with_orders load doc].
  exists (saved now d4). split; [reflexivity|]. split.
  { apply (findById_replace _ _ order); [exact Hf|].
    rewrite S1, H2. apply (findById_Some _ _ _ Hf). }
  split; [congruence|].
  rewrite S8, H4, H5, H3.
  destruct (Status_eqb (status order) s); cbn [negb];
    [reflexivity|]. rewrite <- app_assoc. reflexivity.
Qed.

Lemma updateOrderStatus_history_witness :
  exists o',
    fst (updateOrderStatus (CartFacts.sample_day 3000) root order1_id shipped
                           None None (Some "resent") after_shipping)
    = Json 200 "Order status updated successfully" (Some o')
    /\ length (statusHistory o') = 4%nat.
Proof.
  edestruct (updateOrderStatus_history (CartFacts.sample_day 3000) root
               order1_id shipped None None (Some "resent") after_shipping)
    as [o' (H1 & _ & _ & H4)].
  - reflexivity.
  - vm_compute. reflexivity.
  - exists o'. split; [exact H1|]. rewrite H4. vm_compute. reflexivity.
Defined.

(** X14. The pay route, called by the owner on an unpaid order with a
    body that is well formed and names a payment method of the schema's
    enum, appends exactly one history entry (status processing) when the
    order was pending and none otherwise. *)
Theorem payOrder_history :
  forall now u id pr st order,
    payOrder_errors pr = [] ->
    validate_paymentResult pr = true ->
    findById id (orders st) = Some order ->
    Order.user order = User._id u ->
    isPaid order = false ->
    exists o',
      fst (payOrder now u id pr st)
      = Json 200 "Order paid successfully" (Some o')
      /\ findById id (orders (snd (payOrder now u id pr st))) = Some o'
      /\ statusHistory o'
         = match status order with
           | pending =>
               (statusHistory order ++ [hook_entry now processing])%list
           | _ => statusHistory order
           end.
Proof.
  intros now u id pr st order Hpr Hv Hf Hown Hpaid.
  unfold payOrder. rewrite Hpr, Hf, Hown, String.eqb_refl, Hpaid. cbn [negb].
  rewrite (updatePaymentStatus_loaded now (orders st) pr (load order) eq_refl), Hv.
  cbn [fst snd orders with_orders load doc].
  set (d2 := paying now pr (load order)).
  destruct (paying_fields now pr (load order))
    as (H1 & _ & H2 & _ & _ & _ & H3 & H5 & H4).
  fold d2 in H1, H2, H3, H4, H5. cbn [load doc status_modified orb] in *.
  pose proof (save_loaded_summary now (orders st) d2 H1) as S. cbv zeta in S.
  destruct S as (_ & S1 & _ & _ & _ & _ & _ & _ & S8).
  change (doc (hook_statusHistory now d2)) with (saved now d2).
  exists (saved now d2). split; [reflexivity|]. split.
  { apply (findById_replace _ _ order); [exact Hf|].
    rewrite S1, H2. apply (findById_Some _ _ _ Hf). }
  rewrite S8, H4, H5, H3. destruct (status order); reflexivity.
Qed.

Lemma payOrder_history_witness :
  exists o',
    findById order1_id
      (orders (snd (payOrder (CartFacts.sample_day 2000) alice order1_id
                             sample_payment one_order))) = Some o'
    /\ length (statusHistory o') = 2%nat.
Proof.
  edestruct (payOrder_history (CartFacts.sample_day 2000) alice order1_id
               sample_payment one_order)
    as [o' (_ & H1 & H2)].
  - reflexivity.
  - reflexivity.
  - vm_compute. reflexivity.
  - reflexivity.
  - reflexivity.
  - exists o'. split; [exact H1|]. rewrite H2. vm_compute. reflexivity.
Defined.

End HandlerFacts.
(** ** The checkout and the stock *)

Module CheckoutFacts.
Import Order OrderFacts HistoryFacts.

Lemma process_items_codes catalog l :
  forall ip pi code e,
    process_items catalog l ip pi = inl (code, e) ->
    code = 404%nat \/ code = 400%nat.
Proof.
  induction l as [|item l IH]; intros ip pi code e; cbn [process_items];
    [discriminate|].
  repeat case_match; try (intros [= <- _]; tauto); apply IH.
Qed.

(** X16. A checkout refused with a status code (400 for a malformed body,
    an empty list or a short stock, 404 for a missing or inactive product)
    returns the store as it was: no order, no stock change, the cart kept. *)
Theorem createOrder_refused_stores_nothing :
  forall now newId u body st code e,
    fst (createOrder now newId u body st) = Failure (Some code) e ->
    snd (createOrder now newId u body st) = st
    /\ (code = 400%nat \/ code = 404%nat).
Proof.
  intros now newId u body st code e. unfold createOrder.
  destruct (createOrder_errors body);
    [|intros [= <- _]; split; [reflexivity|tauto]].
  destruct (b_orderItems body) as [|i0 rest];
    [intros [= <- _]; split; [reflexivity|tauto]|].
  destruct (process_items (products st) (i0 :: rest) 0%float [])
    as [[c e']|[ip pi]] eqn:Ep.
  - intros [= <- _]. split; [reflexivity|].
    destruct (process_items_codes _ _ _ _ _ _ Ep); tauto.
  - rewrite save_priced_order. discriminate.
Qed.

Lemma createOrder_refused_stores_nothing_witness :
  snd (createOrder (CartFacts.sample_day 2000) "65b000000000000000000002" alice
         (mkOrderBody [mkReqItem lamp_id 9%float None] sample_address None
                      "stripe" None None)
         one_order)
  = one_order.
Proof.
  apply (createOrder_refused_stores_nothing (CartFacts.sample_day 2000)
           "65b000000000000000000002" alice
           (mkOrderBody [mkReqItem lamp_id 9%float None] sample_address None
                        "stripe" None None)
           one_order 400%nat
           (Error_ "Insufficient stock for product: Desk lamp")).
  vm_compute. reflexivity.
Defined.

(** *** Stock movements *)

Lemma updateStock_Ok_count q op p p' :
  Product.updateStock q op p = Ok p' ->
  Product.countInStock p'
  = (if String.eqb op "subtract" then PrimFloat.sub (Product.countInStock p) q
     else if String.eqb op "add" then PrimFloat.add (Product.countInStock p) q
     else Product.countInStock p).
Proof.
  unfold Product.updateStock, bind.
  destruct (String.eqb op "subtract").
  - destruct (JS.lt (Product.countInStock p) q); [discriminate|].
    unfold Product.save. destruct (Product.validate _); [|discriminate].
    intros [= <-]. reflexivity.
  - destruct (String.eqb op "add");
      unfold Product.save; destruct (Product.validate _); try discriminate;
      intros [= <-]; reflexivity.
Qed.

Lemma update_stocks_frame guarded op lines :
  forall catalog id,
    ~ In id (map fst lines) ->
    fst (update_stocks guarded op lines catalog) !! id = catalog !! id.
Proof.
  induction lines as [|[id0 q] lines IH]; intros catalog id Hid;
    cbn [update_stocks]; [reflexivity|].
  cbn [map fst In] in Hid.
  destruct (catalog !! id0) as [p|].
  - destruct (Product.updateStock q op p) as [p'|e]; [|reflexivity].
    rewrite IH by tauto. apply lookup_insert_ne. tauto.
  - destruct guarded; [apply IH; tauto|reflexivity].
Qed.

Lemma update_stocks_each op lines :
  forall catalog catalog',
    NoDup (map fst lines) ->
    update_stocks false op lines catalog = (catalog', None) ->
    forall id q, In (id, q) lines ->
      exists p p',
        catalog !! id = Some p /\ catalog' !! id = Some p'
        /\ Product.updateStock q op p = Ok p'.
Proof.
  induction lines as [|[id0 q0] lines IH]; intros catalog catalog' Hnd H id q Hin;
    [destruct Hin|].
  cbn [update_stocks] in H. cbn [map fst] in Hnd.
  apply NoDup_cons in Hnd as [Hnotin Hnd].
  destruct (catalog !! id0) as [p|] eqn:Ep; [|discriminate].
  destruct (Product.updateStock q0 op p) as [p'|e] eqn:Eu; [|discriminate].
  destruct Hin as [[= <- <-]|Hin].
  - exists p, p'. split; [exact Ep|]. split; [|exact Eu].
    replace catalog' with (fst (update_stocks false op lines (<[id0:=p']> catalog)))
      by (rewrite H; reflexivity).
    rewrite update_stocks_frame.
    + apply lookup_insert_eq.
    + rewrite <- list_elem_of_In. exact Hnotin.
  - destruct (IH _ _ Hnd H id q Hin) as (p1 & p1' & H1 & H2 & H3).
    exists p1, p1'. split; [|split; assumption].
    rewrite lookup_insert_ne in H1; [exact H1|].
    intros <-. apply Hnotin. rewrite list_elem_of_In.
    apply in_map_iff. exists (id0, q). split; [reflexivity|exact Hin].
Qed.

(** X19. Cancelling never touches a product that is not a line of the
    order, whatever the outcome of the request. *)
Theorem cancelOrderRoute_stock_frame :
  forall now u id reason st order pid,
    findById id (orders st) = Some order ->
    ~ In pid (map product (orderItems order)) ->
    products (snd (cancelOrderRoute now u id reason st)) !! pid
    = products st !! pid.
Proof.
  intros now u id reason st order pid Hf Hpid.
  unfold cancelOrderRoute. rewrite Hf.
  destruct (negb (String.eqb (Order.user order) (User._id u))); [reflexivity|].
  destruct (cancelOrder now (orders st) _ (User._id u) (load order))
    as [[orders' d]|e] eqn:Ec; [|reflexivity].
  assert (orderItems (doc d) = orderItems order) as Hitems.
  { revert Ec. unfold cancelOrder. cbn [load doc].
    destruct (status order); try discriminate; cbv zeta;
      match goal with
      | |- save now (orders st) ?d0 = _ -> _ =>
          pose proof (save_loaded_summary now (orders st) d0 eq_refl) as S;
          cbv zeta in S; destruct S as (E & _ & _ & _ & _ & _ & _ & S7 & _);
          rewrite E; destruct (validate d0); [|discriminate];
          intros [= _ <-]; exact S7
      end. }
  match goal with
  | |- context [update_stocks true "add" ?lines (products st)] =>
      pose proof (update_stocks_frame true "add" lines (products st) pid) as F;
      destruct (update_stocks true "add" lines (products st)) as [products' [e|]]
  end; cbn [fst snd products] in *; apply F;
    rewrite map_map; cbn [fst]; rewrite Hitems; exact Hpid.
Qed.

Lemma cancelOrderRoute_stock_frame_witness :
  products after_cancel !! "65a000000000000000000009"
  = products one_order !! "65a000000000000000000009".
Proof.
  apply (cancelOrderRoute_stock_frame (CartFacts.sample_day 2000) alice
           order1_id None one_order
           sample_order).
  - vm_compute. reflexivity.
  - vm_compute. intros [H|[]]. discriminate H.
Defined.

End CheckoutFacts.

(** ** Refused and repeated requests *)

Module GuardFacts.
Import Order OrderFacts HistoryFacts.

Definition stores_only_on_success (req : OrderRequest) : bool :=
  match req with
  | ReqPay _ _ _ | ReqStatus _ _ _ _ _ _ | ReqStripeConfirm _ _ _ _
  | ReqRefund _ _ _ _ _ => true
  | _ => false
  end.

(** X20. A pay, admin status, Stripe confirm or refund request that ends
    in an error (wrong caller, unknown order, malformed body, order already
    paid or not paid, gateway failure) returns the store unchanged. *)
Theorem failed_request_stores_nothing :
  forall now req st code e,
    stores_only_on_success req = true ->
    fst (handle now req st) = Failure code e ->
    snd (handle now req st) = st.
Proof.
  intros now req st code e Hreq.
  destruct req as [newId u body | u id pr | u id reason | u id s tn ca note
                  | u pi oid r | event | u oid a reason ok];
    try discriminate Hreq; cbn [handle];
    unfold payOrder, updateOrderStatus, stripeConfirm, refund;
    repeat case_match; cbn [fst snd]; try discriminate; reflexivity.
Qed.

Lemma failed_request_stores_nothing_witness :
  snd (handle (CartFacts.sample_day 2000)
              (ReqStatus alice order1_id delivered None None None)
              one_order)
  = one_order.
Proof.
  apply (failed_request_stores_nothing (CartFacts.sample_day 2000)
           (ReqStatus alice order1_id delivered None None None) one_order
           (Some 403%nat) (Error_ "Not authorized as admin"));
    reflexivity.
Defined.

(** X21. On an order that is already paid, the pay route answers with an
    error (400 "Order is already paid" for the owner with a well-formed
    body) and the Stripe webhook for that order does nothing: both return
    the store unchanged. *)
Theorem paid_order_is_not_paid_again :
  forall now u id pr intent st order,
    findById id (orders st) = Some order ->
    isPaid order = true ->
    (exists code e, payOrder now u id pr st = (Failure code e, st))
    /\ (payOrder_errors pr = [] -> Order.user order = User._id u ->
        payOrder now u id pr st
        = (Failure (Some 400%nat) (Error_ "Order is already paid"), st))
    /\ (pi_orderId intent = Some id ->
        stripeWebhook now (Some (payment_intent_succeeded intent)) st
        = (Json 200 "received" None, st)).
Proof.
  intros now u id pr intent st order Hf Hpaid. split; [|split].
  - unfold payOrder. rewrite Hf, Hpaid.
    destruct (payOrder_errors pr); [|eauto].
    destruct (negb (String.eqb (Order.user order) (User._id u))); eauto.
  - intros Hpr Hown. unfold payOrder.
    rewrite Hpr, Hf, Hown, String.eqb_refl, Hpaid. reflexivity.
  - intros Hid. unfold stripeWebhook. rewrite Hid.
    destruct id; [reflexivity|]. rewrite Hf, Hpaid. reflexivity.
Qed.

Lemma paid_order_is_not_paid_again_witness :
  payOrder (CartFacts.sample_day 3000) alice order1_id sample_payment
           after_webhook
  = (Failure (Some 400%nat) (Error_ "Order is already paid"), after_webhook).
Proof.
  edestruct (paid_order_is_not_paid_again (CartFacts.sample_day 3000) alice
               order1_id sample_payment sample_intent after_webhook)
    as (_ & H & _).
  - vm_compute. reflexivity.
  - reflexivity.
  - apply H; reflexivity.
Defined.

(** The document the refund route hands to [save], and what is stored. *)
Definition refunding (now : Date) (reason' : string) (order : Order)
    : Document :=
  update (fun o => set_refundReason (Some reason')
                     (set_refundedAt (Some now) o))
         (assign_status refunded (load order)).

Lemma refund_document now order reason' :
  let o' := saved now (refunding now reason' order) in
  _id o' = _id order
  /\ status o' = refunded
  /\ refundedAt o' = Some now
  /\ refundReason o' = Some reason'
  /\ isPaid o' = isPaid order.
Proof.
  destruct order.
  match goal with s : Status |- _ => destruct s end; vm_compute; repeat split.
Qed.

(** X22. A refund answers with an order only when the caller is an admin,
    the order is paid, its payment result carries a transaction id and
    names stripe or razorpay as the method, and the gateway call returned.
    The order of the answer is then the one stored under that id, in place
    of the paid order and with the rest of the store untouched: it is
    refunded, with refundedAt = now and the given reason (or "Refunded by
    admin").  For any other method, such as cash on delivery, the 400
    thrown inside the try block is replaced by the catch block's 500
    "Failed to process refund". *)
Theorem refund_outcomes :
  forall now u oid amount reason ok st,
    (forall code msg o',
        fst (refund now u oid amount reason ok st) = Json code msg (Some o') ->
        User.isAdmin u = true /\ ok = true
        /\ snd (refund now u oid amount reason ok st)
           = with_orders (replace o' (orders st)) st
        /\ findById oid (orders (snd (refund now u oid amount reason ok st)))
           = Some o'
        /\ status o' = refunded /\ refundedAt o' = Some now
        /\ refundReason o'
           = Some (if truthy reason then default "" reason
                   else "Refunded by admin")
        /\ exists order pr m,
             findById oid (orders st) = Some order
             /\ isPaid order = true
             /\ paymentResult order = Some pr
             /\ truthy (PaymentResult.transactionId pr) = true
             /\ PaymentResult.paymentMethod pr = Some m
             /\ (m = "stripe" \/ m = "razorpay"))
    /\ (forall order pr,
           User.isAdmin u = true ->
           Validator.isMongoId oid = true -> amount = None ->
           findById oid (orders st) = Some order ->
           isPaid order = true ->
           paymentResult order = Some pr ->
           truthy (PaymentResult.transactionId pr) = true ->
           PaymentResult.paymentMethod pr = Some "cash_on_delivery" ->
           refund now u oid amount reason ok st
           = (Failure (Some 500%nat) (Error_ "Failed to process refund"), st)).
Proof.
  intros now u oid amount reason ok st. split.
  - intros code msg o'. unfold refund.
    destruct (User.isAdmin u); cbn [negb]; [|discriminate].
    match goal with
    | |- context [(Validator.check ?a ?b ++ Validator.check ?c ?d)%list] =>
        destruct (Validator.check a b ++ Validator.check c d)%list
    end; [|discriminate].
    destruct (findById oid (orders st)) as [order|] eqn:Ef; [|discriminate].
    destruct (isPaid order) eqn:Ep; cbn [negb]; [|discriminate].
    destruct (paymentResult order) as [pr|] eqn:Er; [|discriminate].
    destruct (truthy (PaymentResult.transactionId pr)) eqn:Et; cbn [negb];
      [|discriminate].
    destruct (PaymentResult.paymentMethod pr) as [m|] eqn:Em;
      cbn [andb]; [|discriminate].
    set (reason' := if truthy reason then default "" reason
                    else "Refunded by admin").
    assert (m = "stripe" \/ m = "razorpay"
            \/ (String.eqb m "stripe" || String.eqb m "razorpay") = false)
      as Hm.
    { destruct (String.eqb_spec m "stripe"); [tauto|].
      destruct (String.eqb_spec m "razorpay"); tauto. }
    destruct (String.eqb m "stripe" || String.eqb m "razorpay") eqn:Esup;
      cbn [andb]; [|discriminate].
    destruct ok; [|discriminate]. cbv zeta.
    change (save now (orders st) _)
      with (save now (orders st) (refunding now reason' order)).
    rewrite (save_loaded now (orders st) (refunding now reason' order)
               eq_refl eq_refl).
    change (doc (hook_statusHistory now (refunding now reason' order)))
      with (saved now (refunding now reason' order)).
    cbn [fst snd load doc]. intros [= _ _ <-].
    destruct (refund_document now order reason') as (R0 & R1 & R2 & R3 & _).
    split; [reflexivity|]. split; [reflexivity|].
    split; [reflexivity|]. split.
    { cbn [orders with_orders].
      apply (findById_replace _ _ order); [exact Ef|].
      rewrite R0. apply (findById_Some _ _ _ Ef). }
    split; [exact R1|]. split; [exact R2|]. split; [exact R3|].
    exists order, pr, m. repeat split; auto.
    destruct Hm as [Hm|[Hm|Hm]]; [tauto|tauto|discriminate].
  - intros order pr Hadmin Hid -> Hf Hpaid Hr Ht Hm.
    unfold refund. rewrite Hadmin, Hid, Hf, Hpaid, Hr, Ht, Hm. reflexivity.
Qed.

Definition after_refund : State :=
  snd (refund (CartFacts.sample_day 4000) root order1_id None None true
              after_webhook).

Lemma refund_outcomes_witness :
  exists o',
    findById order1_id (orders after_refund) = Some o'
    /\ status o' = refunded.
Proof.
  eexists. split.
  - eapply (proj1 (refund_outcomes (CartFacts.sample_day 4000) root order1_id
                     None None true after_webhook) 200%nat
              "Refund processed successfully").
    vm_compute. reflexivity.
  - vm_compute. reflexivity.
Defined.

End GuardFacts.

(** ** Reordering *)

Module ReorderFacts.
Import Order OrderFacts.

(** X23. When the reorder route answers with lines, they are the lines of
    the original order whose product is in the catalog, active and stocked
    for the line's quantity, in the original order and with the original
    quantities; their number plus the reported unavailable count is the
    number of lines of the original order, and the list is not empty.  It
    answers 400 exactly when the caller owns the order and no line is
    available. *)
Theorem reorder_splits_lines :
  forall u id st,
    (forall available unavailableCount,
        reorder u id st = inr (available, unavailableCount) ->
        exists order,
          findById id (orders st) = Some order
          /\ Order.user order = User._id u
          /\ available
             = map (fun item => mkReqItem (product item) (quantity item)
                                          (variant item))
                   (List.filter (reorder_available (products st))
                                (orderItems order))
          /\ (length available + unavailableCount)%nat
             = length (orderItems order)
          /\ available <> []
          /\ forall item, In item available ->
               exists p, products st !! r_product item = Some p
                         /\ Product.isActive p = true
                         /\ PrimFloat.leb (r_quantity item)
                                          (Product.countInStock p) = true)
    /\ (forall e,
           reorder u id st = inl (400%nat, e) <->
           e = Error_ "No items from the original order are available"
           /\ exists order,
                findById id (orders st) = Some order
                /\ Order.user order = User._id u
                /\ forall item, In item (orderItems order) ->
                     reorder_available (products st) item = false).
Proof.
  intros u id st. unfold reorder.
  destruct (findById id (orders st)) as [order|] eqn:Ef.
  2: { split; [discriminate|]. intros e. split; [discriminate|].
       intros [_ [o [? _]]]. discriminate. }
  destruct (String.eqb_spec (Order.user order) (User._id u)) as [Eu|Eu];
    cbn [negb].
  2: { split; [discriminate|]. intros e. split; [discriminate|].
       intros [_ [o [[= <-] [? _]]]]. contradiction. }
  remember (List.filter (reorder_available (products st)) (orderItems order))
    as kept eqn:Hkept.
  assert (length kept <= length (orderItems order))%nat as Hlen
      by (subst kept; apply List.filter_length_le).
  assert (forall x, In x kept <->
                    In x (orderItems order)
                    /\ reorder_available (products st) x = true) as Hin_kept
      by (intros x; subst kept; apply filter_In).
  destruct kept as [|k kept']; cbn [map].
  - split; [discriminate|]. intros e. split.
    + intros [= <-]. split; [reflexivity|]. exists order.
      split; [reflexivity|]. split; [exact Eu|].
      intros item Hin.
      destruct (reorder_available (products st) item) eqn:Ea; [|reflexivity].
      destruct (proj2 (Hin_kept item) (conj Hin Ea)).
    + intros [-> _]. reflexivity.
  - split.
    + intros available n [= <- <-]. exists order.
      split; [reflexivity|]. split; [exact Eu|].
      split; [rewrite <- Hkept; reflexivity|].
      split.
      { cbn [length] in *. rewrite length_map. lia. }
      split; [discriminate|].
      intros item Hin.
      change (mkReqItem (product k) (quantity k) (variant k)
              :: map (fun item => mkReqItem (product item) (quantity item)
                                            (variant item)) kept')
        with (map (fun item => mkReqItem (product item) (quantity item)
                                         (variant item)) (k :: kept')) in Hin.
      apply in_map_iff in Hin as [line [<- Hline]].
      apply Hin_kept in Hline as [_ Ha].
      unfold reorder_available, JS.ge in Ha. cbn [r_product r_quantity].
      destruct (products st !! product line) as [p|]; [|discriminate].
      apply andb_true_iff in Ha as [Ha1 Ha2]. exists p. repeat split; assumption.
    + intros e. split; [discriminate|].
      intros [_ [o [[= <-] [_ H]]]].
      destruct (proj1 (Hin_kept k) (or_introl eq_refl)) as [Hin Ha].
      rewrite (H k Hin) in Ha. discriminate.
Qed.

Lemma reorder_splits_lines_witness :
  reorder alice order1_id one_order
  = inr ([mkReqItem lamp_id 1%float None], 0%nat).
Proof.
  destruct (reorder alice order1_id one_order) as [[c e]|[av n]] eqn:E.
  - vm_compute in E. discriminate E.
  - destruct (proj1 (reorder_splits_lines alice order1_id one_order) av n E)
      as [order (Hf & _ & Hav & Hn & _)].
    vm_compute in Hf. injection Hf as <-.
    vm_compute in Hav. subst av. cbn [length] in Hn.
    assert (n = 0%nat) as -> by (vm_compute in Hn; lia). reflexivity.
Defined.

End ReorderFacts.

(** ** More on order numbers *)

Module SequenceFacts.
Import Order OrderNumberFacts.

(** X24. The hook reads back what it printed: for a date the clock can
    give and a sequence n between 1 and 9999, an order carrying the number
    formatted for n makes the next sequence n + 1; and [padStart] of the
    decimal text of a number below 10^w is its w digits. *)
Theorem sequence_round_trip :
  forall date n o,
    wf_date date -> (1 <= n <= 9999)%Z ->
    orderNumber o = format_orderNumber date (Some n) ->
    next_sequence (Some o) = Some (n + 1)%Z
    /\ String.length (orderNumber o) = 13%nat
    /\ forall w m, (1 <= w)%nat -> (0 <= m < 10 ^ Z.of_nat w)%Z ->
         padStart0 w (pretty m) = fixed_width w m
         /\ String.length (padStart0 w (pretty m)) = w.
Proof.
  intros date n o Hd Hn Ho.
  rewrite format_expected in Ho by assumption.
  split; [|split].
  - cbn [next_sequence]. rewrite Ho.
    change (expected_orderNumber date n)
      with (String "O" (String "R" (String "D"
              (fixed_width 2 (getFullYear date mod 100)
               ++ fixed_width 2 (getMonth date + 1)
               ++ fixed_width 2 (getDate date)
               ++ fixed_width 4 n)))) at 1.
    cbv iota.
    change (String "O" (String "R" (String "D"
              (fixed_width 2 (getFullYear date mod 100)
               ++ fixed_width 2 (getMonth date + 1)
               ++ fixed_width 2 (getDate date)
               ++ fixed_width 4 n))))
      with (expected_orderNumber date n).
    rewrite parse_expected by lia. reflexivity.
  - rewrite Ho. apply length_expected.
  - intros w m Hw Hm. rewrite padStart_fixed_width by assumption.
    split; [reflexivity|apply length_fixed_width].
Qed.

Lemma sequence_round_trip_witness :
  next_sequence (Some (numbered 41)) = Some 42%Z.
Proof.
  apply (sequence_round_trip (CartFacts.sample_day 0) 41 (numbered 41)).
  - vm_compute. repeat split; discriminate.
  - lia.
  - vm_compute. reflexivity.
Defined.

Lemma expected_inj d k1 k2 :
  (0 <= k1 < 10000)%Z -> (0 <= k2 < 10000)%Z ->
  expected_orderNumber d k1 = expected_orderNumber d k2 -> k1 = k2.
Proof.
  intros H1 H2 E.
  pose proof (parse_expected d k1 H1) as P1.
  rewrite E, parse_expected in P1 by assumption. congruence.
Qed.

Lemma count_today_mono d l x :
  (count_today d l <= count_today d (l ++ [x]))%Z.
Proof. rewrite count_today_snoc. destruct (created_today d x); lia. Qed.

Lemma sequential_numbers l :
  Sequential l ->
  forall now, (count_today now l < 9999)%Z ->
  forall o, In o l -> created_today now o = true ->
    exists k, (1 <= k <= count_today now l)%Z
              /\ orderNumber o = expected_orderNumber now k.
Proof.
  induction 1 as [|l x Hseq IH Hwf Hlater Hnum]; intros now Hcount o Hin Ho;
    [destruct Hin|].
  apply in_app_iff in Hin as [Hin|[<-|[]]].
  - destruct (IH now) with (o := o) as [k [Hk Hk']]; try assumption.
    { pose proof (count_today_mono now l x). lia. }
    exists k. split; [|exact Hk'].
    pose proof (count_today_mono now l x). lia.
  - destruct (created_today_fields _ _ Ho) as (Hy & Hm & Hd); [apply Hwf|].
    rewrite count_today_snoc, Ho in *.
    pose proof (count_today_nonneg now l).
    rewrite (same_day_count now (createdAt x)) in Hnum by assumption.
    rewrite (same_day_expected now (createdAt x)) in Hnum by assumption.
    exists (count_today now l + 1)%Z. split; [lia|]. apply Hnum. lia.
Qed.

(** X25. On a sequentially numbered collection with fewer than 9999
    orders of the day, the number generated for a new order differs from
    the number of every order already created that day. *)
Theorem generated_number_is_fresh :
  forall l now o,
    Sequential l -> wf_date now -> (count_today now l < 9999)%Z ->
    In o l -> created_today now o = true ->
    orderNumber o <> generate_orderNumber now l.
Proof.
  intros l now o Hseq Hnow Hcount Hin Ho E.
  rewrite (generate_on_sequential l Hseq now Hnow Hcount) in E.
  destruct (sequential_numbers l Hseq now Hcount o Hin Ho) as [k [Hk Hk']].
  rewrite Hk' in E. apply expected_inj in E; lia.
Qed.

Lemma generated_number_is_fresh_witness :
  orderNumber (numbered 2)
  <> generate_orderNumber (CartFacts.sample_day 5000) (day_orders 3).
Proof.
  apply generated_number_is_fresh.
  - apply day_orders_sequential.
  - vm_compute. repeat split; discriminate.
  - vm_compute. reflexivity.
  - vm_compute. tauto.
  - vm_compute. reflexivity.
Defined.

End SequenceFacts.

(** ** Remaining edge behaviour *)

Module EdgeFacts.
Import Cart CartFacts.

(** X27. Whatever goes wrong in the Stripe confirm endpoint after the
    request validation (gateway error, payment not succeeded, unknown
    order, caller who does not own the order), the answer is the catch
    block's 500 "Failed to confirm payment": the 400, 403 and 404 set
    inside the try block never reach the caller. *)
Theorem stripeConfirm_error_codes :
  forall now u paymentIntentId orderId retrieved st code e,
    fst (stripeConfirm now u paymentIntentId orderId retrieved st)
    = Failure code e ->
    (code = Some 400%nat
     /\ (paymentIntentId = "" \/ Validator.isMongoId orderId = false))
    \/ (code = Some 500%nat /\ e = Error_ "Failed to confirm payment").
Proof.
  intros now u paymentIntentId orderId retrieved st code e.
  unfold stripeConfirm, Validator.check, Validator.notEmpty.
  destruct (String.eqb_spec paymentIntentId "") as [->|Hp]; cbn [negb app].
  - intros [= <- _]. left. split; [reflexivity|]. left. reflexivity.
  - destruct (Validator.isMongoId orderId) eqn:Em; cbn [app].
    + repeat case_match; cbn [fst]; try discriminate;
        intros [= <- <-]; right; split; reflexivity.
    + intros [= <- _]. left. split; [reflexivity|]. right. reflexivity.
Qed.

Lemma stripeConfirm_error_codes_witness :
  fst (stripeConfirm (sample_day 3000) OrderFacts.root "pi_1"
                     OrderFacts.order1_id (Some OrderFacts.sample_intent)
                     OrderFacts.one_order)
  = Failure (Some 500%nat) (Error_ "Failed to confirm payment").
Proof.
  destruct (stripeConfirm_error_codes (sample_day 3000) OrderFacts.root "pi_1"
              OrderFacts.order1_id (Some OrderFacts.sample_intent)
              OrderFacts.one_order (Some 500%nat)
              (Error_ "Failed to confirm payment"))
    as [[H _]|[_ _]].
  - vm_compute. reflexivity.
  - discriminate H.
  - vm_compute. reflexivity.
Defined.

(** X28. When [updateItemQuantity] returns for a quantity above 0, the
    cart has as many lines as before, the first line with the (product,
    variant) pair holds Math.min(quantity, 10), a value within 1..10, and
    every other line is as it was. *)
Theorem updateItemQuantity_sets_one_line :
  forall now productId quantity' variant' c c',
    PrimFloat.leb quantity' 0%float = false ->
    updateItemQuantity now productId quantity' variant' c = Ok c' ->
    exists i old,
      findIndex (same_line productId variant') (items c) = Some i
      /\ items c !! i = Some old
      /\ items c' !! i = Some (set_quantity (Math_min quantity' 10%float) old)
      /\ PrimFloat.leb 1%float (Math_min quantity' 10%float) = true
      /\ PrimFloat.leb (Math_min quantity' 10%float) 10%float = true
      /\ length (items c') = length (items c)
      /\ forall j, j <> i -> items c' !! j = items c !! j.
Proof.
  intros now productId quantity' variant' c c' Hq.
  unfold updateItemQuantity, JS.le. rewrite Hq.
  destruct (findIndex (same_line productId variant') (items c)) as [i|] eqn:Ei;
    [|discriminate].
  intros H. apply save_Ok in H as [Hval ->].
  destruct (findIndex_Some _ _ _ Ei) as [old [Hold _]].
  exists i, old. cbn [items pre_save set_items] in *.
  assert (alter (set_quantity (Math_min quantity' 10%float)) i (items c) !! i
          = Some (set_quantity (Math_min quantity' 10%float) old)) as Hnew
      by (rewrite list_lookup_alter_eq, Hold; reflexivity).
  split; [reflexivity|]. split; [exact Hold|]. split; [exact Hnew|].
  apply list_elem_of_lookup_2, list_elem_of_In in Hnew.
  destruct (validate_items _ _ Hval Hnew) as [B1 B2].
  split; [exact B1|]. split; [exact B2|].
  split; [apply length_alter|].
  intros j Hj. apply list_lookup_alter_ne. congruence.
Qed.

Lemma updateItemQuantity_sets_one_line_witness :
  exists c',
    updateItemQuantity (sample_day 5000) "65a000000000000000000001"
                       25%float (Some sample_variant) sample_cart = Ok c'
    /\ map quantity (items c') = [10%float].
Proof.
  eexists. split; [vm_compute; reflexivity|].
  edestruct (updateItemQuantity_sets_one_line (sample_day 5000)
               "65a000000000000000000001" 25%float (Some sample_variant)
               sample_cart)
    as (i & old & _ & _ & _ & _ & _ & _ & _).
  - reflexivity.
  - vm_compute. reflexivity.
  - vm_compute. reflexivity.
Defined.

End EdgeFacts.

(** ** The coupon at checkout and in the cart *)

Module CouponFacts.
Import Cart CartFacts CartMethodFacts.

Lemma SFcompare_antisym a b c :
  SFcompare a b = Some c -> SFcompare b a = Some (CompOpp c).
Proof.
  destruct a as [sa|sa| |sa ma ea], b as [sb|sb| |sb mb eb];
    cbn; try discriminate;
    try (destruct sa; intros [= <-]; reflexivity);
    try (destruct sb; intros [= <-]; reflexivity);
    try (intros [= <-]; reflexivity).
  - destruct sa, sb; intros [= <-]; reflexivity.
  - intros [= <-]. f_equal.
    change (Pos.compare_cont Eq mb ma) with (Pos.compare mb ma).
    change (Pos.compare_cont Eq ma mb) with (Pos.compare ma mb).
    rewrite (Z.compare_antisym ea eb), (Pos.compare_antisym ma mb).
    destruct sa, sb; cbn; try reflexivity;
      destruct (ea ?= eb)%Z; cbn; try reflexivity;
      destruct (ma ?= mb)%positive; reflexivity.
Qed.

Lemma ltb_not_geb x m : PrimFloat.ltb x m = true -> JS.ge x m = false.
Proof.
  unfold JS.ge. rewrite FloatAxioms.ltb_spec, FloatAxioms.leb_spec. unfold SFltb, SFleb.
  destruct (SFcompare (Prim2SF x) (Prim2SF m)) as [c|] eqn:E; [|discriminate].
  rewrite (SFcompare_antisym _ _ _ E).
  destruct c; try discriminate. reflexivity.
Qed.

Lemma not_ltb_geb x m :
  JS.ge x 0%float = true -> PrimFloat.eqb m m = true ->
  PrimFloat.ltb x m = false -> JS.ge x m = true.
Proof.
  unfold JS.ge. rewrite FloatAxioms.ltb_spec, !FloatAxioms.leb_spec, FloatAxioms.eqb_spec.
  unfold SFltb, SFleb, SFeqb.
  change (Prim2SF 0%float) with (S754_zero false).
  intros Hx Hm.
  assert (exists c, SFcompare (Prim2SF x) (Prim2SF m) = Some c) as [c E].
  { destruct (Prim2SF x), (Prim2SF m); cbn in *; try discriminate; eauto. }
  rewrite E, (SFcompare_antisym _ _ _ E).
  destruct c; try discriminate; reflexivity.
Qed.

(** X5. The checkout resolves a coupon like the cart, with one
    difference.  Fed the cart's stored subtotal, it computes the discount
    [applyCoupon] stores when [applyCoupon] returns; where [applyCoupon]
    throws "Invalid coupon code" or the minimum-amount error, the checkout
    raises nothing and uses a discount of 0. *)
Theorem order_discount_matches_cart :
  forall now code c,
    match applyCoupon now code c with
    | Ok c' => order_discount (Some code) (subtotal c) = couponDiscount c'
    | Throw ValidationError => True
    | Throw _ => order_discount (Some code) (subtotal c) = 0%float
    end.
Proof.
  intros now code c.
  assert (code = "" -> coupons (toUpperCase code) = None) as Hempty
      by (intros ->; reflexivity).
  unfold order_discount.
  destruct (coupons (toUpperCase code)) as [coupon|] eqn:Ek.
  - rewrite (applyCoupon_known _ _ _ _ Ek).
    destruct code as [|a code]; [specialize (Hempty eq_refl); discriminate|].
    destruct (PrimFloat.ltb (subtotal c) (minAmount coupon)) eqn:El.
    + rewrite (ltb_not_geb _ _ El). reflexivity.
    + destruct (save now _) as [c'|e] eqn:Es.
      * apply save_Ok in Es as [Hval ->].
        unfold validate in Hval. cbn [subtotal set_coupon] in Hval.
        repeat (apply andb_prop in Hval as [Hval ?]).
        rewrite not_ltb_geb; [reflexivity|assumption| |exact El].
        pose proof (coupons_known (toUpperCase (String a code))) as Hk.
        rewrite Ek in Hk. destruct Hk as [_ [<-|[<-|[<-|[]]]]]; reflexivity.
      * unfold save in Es. destruct (validate _); [discriminate|].
        injection Es as <-. exact I.
  - unfold applyCoupon. rewrite Ek. destruct code; reflexivity.
Qed.

End CouponFacts.

